(** * homeassistant/exceptions.py: the exceptions used by Home Assistant

    A shallow embedding of the exception taxonomy of
    [homeassistant/exceptions.py] and of the rendering of condition-error
    trees, together with the properties of the specification that concern
    them.

    Conventions of the embedding:
    - a Python [str] is a [string]; each [ascii] stands for one code point
      below 256;
    - a Python [int] is a [Z] (unbounded), printed in decimal by [int_str];
    - a generator is the finite list of the lines it yields together with
      the way it ends: by returning, or by raising an exception;
    - objects that can refer to themselves (an exception stored in its own
      [args] tuple) live in an explicit heap, addressed by position. *)

From Stdlib Require Import ZArith List String Ascii Bool Lia DecimalString.
Import ListNotations.

Open Scope Z_scope.
Open Scope string_scope.

(** ** Python strings and integers *)

Module PyStr.

(** [str(n)] and [f"{n}"] for an [int]. *)
Definition int_str (n : Z) : string := NilZero.string_of_int (Z.to_int n).

(** [s * n]: the empty string when [n <= 0]. *)
Definition str_mul (s : string) (n : Z) : string :=
  Nat.iter (Z.to_nat n) (String.append s) "".

(** [sep.join(ls)]. *)
Definition join (sep : string) (ls : list string) : string :=
  String.concat sep ls.

(** The line feed of ["\n"]. *)
Definition newline : string := String (ascii_of_nat 10) "".

(** [n] blanks; what the specification calls a prefix of [n] spaces. *)
Fixpoint spaces (n : nat) : string :=
  match n with
  | O => ""
  | S m => String " " (spaces m)
  end.

End PyStr.
Import PyStr.

(** ** Exceptions raised while rendering, and generators *)

Inductive PyExc : Type :=
| NotImplementedError.

Inductive outcome : Type :=
| Returned
| Raised (e : PyExc).

Inductive result (A : Type) : Type :=
| Ok (a : A)
| Err (e : PyExc).
Arguments Ok {A} a.
Arguments Err {A} e.

Module Gen.

(** What a consumer observes when it drains a [Generator[str, None, None]]:
    the lines yielded, in order, and how the generator ended. *)
Definition t : Type := (list string * outcome)%type.

Definition lines (g : t) : list string := fst g.
Definition ending (g : t) : outcome := snd g.

(** [yield x] *)
Definition yield (x : string) : t := ([x], Returned).

(** A body that falls off its end without yielding. *)
Definition stop : t := ([], Returned).

(** [raise e] *)
Definition raise (e : PyExc) : t := ([], Raised e).

(** Sequencing of two generator bodies; also [yield from g1] followed by
    the rest [g2]: an exception in [g1] leaves [g2] unrun. *)
Definition seq (g1 g2 : t) : t :=
  match g1 with
  | (l1, Returned) => ((l1 ++ fst g2)%list, snd g2)
  | (l1, Raised e) => (l1, Raised e)
  end.

(** [list(g)] *)
Definition to_list (g : t) : result (list string) :=
  match g with
  | (ls, Returned) => Ok ls
  | (_, Raised e) => Err e
  end.

End Gen.

Notation "g1 ;; g2" := (Gen.seq g1 g2) (at level 61, right associativity).

(** ** The condition-error tree

    One constructor per [attr.s] class.  [ConditionErrorBase] is an instance
    of the base class [ConditionError] itself, which carries only [type] and
    whose [output] is not implemented.  [ConditionErrorContainer] inherits
    the [type] attribute like the others. *)

Unset Elimination Schemes.
Inductive ConditionError : Type :=
| ConditionErrorBase (type : string)
| ConditionErrorMessage (type : string) (message : string)
| ConditionErrorIndex (type : string) (index : Z) (total : Z)
                      (error : ConditionError)
| ConditionErrorContainer (type : string) (errors : list ConditionError).
Set Elimination Schemes.

(** Structural induction that also reaches the children of a container. *)
Fixpoint ConditionError_tree_ind (P : ConditionError -> Prop)
    (Hbase : forall type, P (ConditionErrorBase type))
    (Hmessage : forall type message, P (ConditionErrorMessage type message))
    (Hindex : forall type index total error,
        P error -> P (ConditionErrorIndex type index total error))
    (Hcontainer : forall type errors,
        Forall P errors -> P (ConditionErrorContainer type errors))
    (e : ConditionError) {struct e} : P e :=
  match e with
  | ConditionErrorBase type => Hbase type
  | ConditionErrorMessage type message => Hmessage type message
  | ConditionErrorIndex type index total error =>
      Hindex type index total error
        (ConditionError_tree_ind P Hbase Hmessage Hindex Hcontainer error)
  | ConditionErrorContainer type errors =>
      Hcontainer type errors
        ((fix children (l : list ConditionError) : Forall P l :=
            match l with
            | [] => Forall_nil P
            | x :: r =>
                Forall_cons x
                  (ConditionError_tree_ind P Hbase Hmessage Hindex Hcontainer x)
                  (children r)
            end) errors)
  end.

(** [ConditionError._indent] *)
Definition _indent (indent : Z) (message : string) : string :=
  str_mul "  " indent ++ message.

(** The [output] methods: [ConditionError.output] (raises),
    [ConditionErrorMessage.output], [ConditionErrorIndex.output] and
    [ConditionErrorContainer.output], selected by the class of [self]. *)
Fixpoint output (self : ConditionError) (indent : Z) : Gen.t :=
  match self with
  | ConditionErrorBase _ =>
      Gen.raise NotImplementedError
  | ConditionErrorMessage type message =>
      Gen.yield (_indent indent ("In '" ++ type ++ "' condition: " ++ message))
  | ConditionErrorIndex type index total error =>
      (if (1 <? total)%Z
       then Gen.yield (_indent indent
              ("In '" ++ type ++ "' (item " ++ int_str (index + 1)
                 ++ " of " ++ int_str total ++ "):"))
       else Gen.yield (_indent indent ("In '" ++ type ++ "':")))
      ;; output error (indent + 1)
  | ConditionErrorContainer _ errors =>
      (fix each (items : list ConditionError) : Gen.t :=
         match items with
         | [] => Gen.stop
         | item :: rest => output item indent ;; each rest
         end) errors
  end.

(** The [for item in self.errors: yield from item.output(indent)] loop on
    its own, for stating facts about it. *)
Fixpoint output_each (items : list ConditionError) (indent : Z) : Gen.t :=
  match items with
  | [] => Gen.stop
  | item :: rest => output item indent ;; output_each rest indent
  end.

(** [ConditionError.__str__], inherited by the three subclasses. *)
Definition __str__ (self : ConditionError) : result string :=
  match Gen.to_list (output self 0) with
  | Ok ls => Ok (join newline ls)
  | Err e => Err e
  end.

(** Trees made of Message, Index and Container nodes only: no instance of
    the abstract base class anywhere. *)
Fixpoint concrete (e : ConditionError) : bool :=
  match e with
  | ConditionErrorBase _ => false
  | ConditionErrorMessage _ _ => true
  | ConditionErrorIndex _ _ _ error => concrete error
  | ConditionErrorContainer _ errors =>
      (fix all (items : list ConditionError) : bool :=
         match items with
         | [] => true
         | item :: rest => concrete item && all rest
         end) errors
  end.

(** Scenarios A and B of the specification. *)
Definition scenario_A : ConditionError :=
  ConditionErrorIndex "and" 1 3
    (ConditionErrorMessage "numeric_state" "value 12 is not below 10").

Definition scenario_B : ConditionError :=
  ConditionErrorContainer "or"
    [ConditionErrorMessage "state" "entity unavailable";
     ConditionErrorMessage "time" "not in range"].

(** ** Objects of the exception taxonomy

    The remaining classes keep the [__str__] and [__repr__] of
    [BaseException] unless they define their own, and two of them store the
    exception itself in its [args].  Their instances and the [args] tuples
    are objects of a heap, so that a tuple can hold a reference to the
    exception that owns it. *)

Module Py.

Definition addr : Type := nat.

Inductive value : Type :=
| VNone
| VStr (s : string)
| VInt (n : Z)
| VRef (a : addr).

(** The classes of the module that derive from [HomeAssistantError] without
    [attr.s], and [Builtin name] for an exception class from elsewhere
    (such as [ValueError]) that keeps the methods of [BaseException]. *)
Module Cls.
Inductive t : Type :=
| HomeAssistantError
| InvalidEntityFormatError
| NoEntitySpecifiedError
| TemplateError
| IntegrationError
| PlatformNotReady
| ConfigEntryNotReady
| ConfigEntryAuthFailed
| InvalidStateError
| Unauthorized
| UnknownUser
| ServiceNotFound
| MaxLengthExceeded
| RequiredParameterMissing
| DependencyError
| Builtin (name : string).
End Cls.

(** [cls.__name__] *)
Definition class_name (c : Cls.t) : string :=
  match c with
  | Cls.HomeAssistantError => "HomeAssistantError"
  | Cls.InvalidEntityFormatError => "InvalidEntityFormatError"
  | Cls.NoEntitySpecifiedError => "NoEntitySpecifiedError"
  | Cls.TemplateError => "TemplateError"
  | Cls.IntegrationError => "IntegrationError"
  | Cls.PlatformNotReady => "PlatformNotReady"
  | Cls.ConfigEntryNotReady => "ConfigEntryNotReady"
  | Cls.ConfigEntryAuthFailed => "ConfigEntryAuthFailed"
  | Cls.InvalidStateError => "InvalidStateError"
  | Cls.Unauthorized => "Unauthorized"
  | Cls.UnknownUser => "UnknownUser"
  | Cls.ServiceNotFound => "ServiceNotFound"
  | Cls.MaxLengthExceeded => "MaxLengthExceeded"
  | Cls.RequiredParameterMissing => "RequiredParameterMissing"
  | Cls.DependencyError => "DependencyError"
  | Cls.Builtin name => name
  end.

(** The base class named in each [class] statement; [None] once the chain
    leaves the module (at [Exception]). *)
Definition base (c : Cls.t) : option Cls.t :=
  match c with
  | Cls.HomeAssistantError | Cls.Builtin _ => None
  | Cls.PlatformNotReady | Cls.ConfigEntryNotReady
  | Cls.ConfigEntryAuthFailed => Some Cls.IntegrationError
  | Cls.UnknownUser => Some Cls.Unauthorized
  | _ => Some Cls.HomeAssistantError
  end.

(** The classes whose body defines [__str__]. *)
Definition defines_str (c : Cls.t) : bool :=
  match c with
  | Cls.IntegrationError | Cls.ServiceNotFound => true
  | _ => false
  end.

(** Method resolution for [__str__]: the first class on the chain of bases
    that defines it; [None] when it is [BaseException.__str__].  The chain
    has at most three classes of this module. *)
Fixpoint str_owner_from (depth : nat) (c : Cls.t) : option Cls.t :=
  if defines_str c then Some c
  else match depth, base c with
       | S d, Some b => str_owner_from d b
       | _, _ => None
       end.

Definition str_owner (c : Cls.t) : option Cls.t := str_owner_from 3 c.

(** The integration-lifecycle errors: the three subclasses of
    [IntegrationError]. *)
Definition lifecycle (c : Cls.t) : bool :=
  match c with
  | Cls.PlatformNotReady | Cls.ConfigEntryNotReady
  | Cls.ConfigEntryAuthFailed => true
  | _ => false
  end.

(** Modelled from the spec: the originating context, class [Context] of
    [homeassistant.core], of which this module reads only the attribute
    [user_id] (a user id or [None]). *)
Record Context : Type := { ctx_user_id : option string }.

(** The attributes that the [__init__] methods assign on [self]. *)
Inductive fields : Type :=
| NoFields
| UnauthorizedFields (context : option Context)
    (user_id entity_id config_entry_id perm_category permission :
       option string)
| ServiceNotFoundFields (domain service : string)
| MaxLengthExceededFields (value property_name : string) (max_length : Z).

Inductive object : Type :=
| OTuple (items : list value)
| OExc (cls : Cls.t) (args : addr) (cause : value) (attrs : fields).

Definition heap : Type := list object.

Definition lookup (h : heap) (a : addr) : option object := nth_error h a.

(** *** [repr] of a [str]

    After [unicode_repr] of CPython, for code points below 256: single
    quotes unless the text holds a single quote and no double quote; the
    quote in use and the backslash are escaped, tab, line feed and carriage
    return get their letter, every other code point that is not printable
    becomes [\xhh]. *)

Definition squote : ascii := ascii_of_nat 39.
Definition dquote : ascii := ascii_of_nat 34.
Definition backslash : ascii := ascii_of_nat 92.

Definition hexdigit (n : N) : ascii :=
  if (n <? 10)%N then ascii_of_N (48 + n) else ascii_of_N (87 + n).

(** [str.isprintable] on one code point below 256. *)
Definition printable (n : N) : bool :=
  ((32 <=? n)%N && (n <? 127)%N) || ((161 <=? n)%N && negb (n =? 173)%N).

Definition repr_char (quote c : ascii) : string :=
  let n := N_of_ascii c in
  if Ascii.eqb c quote || Ascii.eqb c backslash
  then String backslash (String c "")
  else if (n =? 9)%N then String backslash "t"
  else if (n =? 10)%N then String backslash "n"
  else if (n =? 13)%N then String backslash "r"
  else if printable n then String c ""
  else String backslash
         (String "x" (String (hexdigit (n / 16))
                        (String (hexdigit (n mod 16)) ""))).

Fixpoint contains (c : ascii) (s : string) : bool :=
  match s with
  | EmptyString => false
  | String c' r => Ascii.eqb c c' || contains c r
  end.

Fixpoint repr_chars (quote : ascii) (s : string) : string :=
  match s with
  | EmptyString => ""
  | String c r => repr_char quote c ++ repr_chars quote r
  end.

Definition str_repr (s : string) : string :=
  let quote :=
    if contains squote s && negb (contains dquote s) then dquote else squote in
  String quote (repr_chars quote s ++ String quote "").

(** *** [repr] and [str] of values

    [fuel] bounds the nesting of calls.  [active] is the list kept by
    [Py_ReprEnter]: the tuples whose [repr] is in progress; a tuple met
    again while on that list is rendered as [(...)]. *)

Fixpoint traverse {A B : Type} (f : A -> option B) (l : list A)
  : option (list B) :=
  match l with
  | [] => Some []
  | x :: r =>
      match f x, traverse f r with
      | Some y, Some ys => Some (y :: ys)
      | _, _ => None
      end
  end.

Fixpoint repr (fuel : nat) (h : heap) (active : list addr) (v : value)
  : option string :=
  match fuel with
  | O => None
  | S fuel' =>
      match v with
      | VNone => Some "None"
      | VStr s => Some (str_repr s)
      | VInt n => Some (int_str n)
      | VRef a =>
          match lookup h a with
          | None => None
          | Some (OTuple []) => Some "()"
          | Some (OTuple items) =>
              (* tuplerepr *)
              if existsb (Nat.eqb a) active then Some "(...)"
              else
                match traverse (repr fuel' h (a :: active)) items with
                | None => None
                | Some [r] => Some ("(" ++ r ++ ",)")
                | Some rs => Some ("(" ++ join ", " rs ++ ")")
                end
          | Some (OExc cls args _ _) =>
              (* BaseException.__repr__ *)
              match lookup h args with
              | Some (OTuple [x]) =>
                  match repr fuel' h active x with
                  | Some r => Some (class_name cls ++ "(" ++ r ++ ")")
                  | None => None
                  end
              | Some (OTuple _) =>
                  match repr fuel' h active (VRef args) with
                  | Some r => Some (class_name cls ++ r)
                  | None => None
                  end
              | _ => None
              end
          end
      end
  end.

(** [BaseException.__str__]: nothing for no argument, the [str] of a single
    argument, the [str] of the whole tuple otherwise. *)
Definition BaseException_str (str_ : value -> option string) (h : heap)
    (args : addr) : option string :=
  match lookup h args with
  | Some (OTuple []) => Some ""
  | Some (OTuple [x]) => str_ x
  | Some (OTuple _) => str_ (VRef args)
  | _ => None
  end.

Fixpoint str (fuel : nat) (h : heap) (v : value) : option string :=
  match fuel with
  | O => None
  | S fuel' =>
      match v with
      | VNone => Some "None"
      | VStr s => Some s
      | VInt n => Some (int_str n)
      | VRef a =>
          match lookup h a with
          | None => None
          | Some (OTuple _) =>
              (* a tuple has no [__str__] of its own *)
              repr fuel' h [] v
          | Some (OExc cls args cause attrs) =>
              match str_owner cls with
              | Some Cls.ServiceNotFound =>
                  (* ServiceNotFound.__str__ *)
                  match attrs with
                  | ServiceNotFoundFields domain service =>
                      Some ("Unable to find service " ++ domain ++ "."
                              ++ service)
                  | _ => None
                  end
              | Some Cls.IntegrationError =>
                  (* IntegrationError.__str__:
                     super().__str__() or str(self.__cause__) *)
                  match BaseException_str (str fuel' h) h args with
                  | Some EmptyString => str fuel' h cause
                  | r => r
                  end
              | _ => BaseException_str (str fuel' h) h args
              end
          end
      end
  end.

(** *** Construction

    [ClassName(...)] on a heap [h]: [BaseException.__new__] allocates the
    exception, at the next free address, and the class's [__init__] (or
    [BaseException.__init__] when it has none) sets [args] to the tuple
    [mk_args self] and assigns the attributes.  [__cause__] starts out as
    [None]. *)
Definition new_exception (h : heap) (cls : Cls.t)
    (mk_args : addr -> list value) (attrs : fields) : heap * addr :=
  let self := List.length h in
  ((h ++ [OExc cls (S self) VNone attrs; OTuple (mk_args self)])%list, self).

(** A class without [__init__]: [args] are the constructor's arguments. *)
Definition Exception_init (h : heap) (cls : Cls.t) (args : list value)
  : heap * addr :=
  new_exception h cls (fun _ => args) NoFields.

(** [raise e from cause] sets [e.__cause__]. *)
Definition set_cause (h : heap) (e : addr) (c : value) : heap :=
  match lookup h e with
  | Some (OExc cls args _ attrs) =>
      (firstn e h ++ OExc cls args c attrs :: skipn (S e) h)%list
  | _ => h
  end.

(** [Unauthorized.__init__], run for [cls] either [Unauthorized] or its
    subclass [UnknownUser]; [super().__init__(self.__class__.__name__)]. *)
Definition Unauthorized_init (h : heap) (cls : Cls.t)
    (context : option Context)
    (user_id entity_id config_entry_id perm_category permission :
       option string) : heap * addr :=
  let user_id :=
    match user_id, context with
    | None, Some c => ctx_user_id c
    | _, _ => user_id
    end in
  new_exception h cls (fun _ => [VStr (class_name cls)])
    (UnauthorizedFields context user_id entity_id config_entry_id
       perm_category permission).

(** [ServiceNotFound.__init__]; [super().__init__(self, f"...")]. *)
Definition ServiceNotFound_init (h : heap) (domain service : string)
  : heap * addr :=
  new_exception h Cls.ServiceNotFound
    (fun self =>
       [VRef self; VStr ("Service " ++ domain ++ "." ++ service ++ " not found")])
    (ServiceNotFoundFields domain service).

(** The text that [MaxLengthExceeded.__init__] builds. *)
Definition max_length_message (value property_name : string)
    (max_length : Z) : string :=
  "Value " ++ value ++ " for property " ++ property_name
    ++ " has a max length of " ++ int_str max_length ++ " characters".

(** [MaxLengthExceeded.__init__]; [super().__init__(self, (f"..." f"..."))]. *)
Definition MaxLengthExceeded_init (h : heap) (value property_name : string)
    (max_length : Z) : heap * addr :=
  new_exception h Cls.MaxLengthExceeded
    (fun self =>
       [VRef self; VStr (max_length_message value property_name max_length)])
    (MaxLengthExceededFields value property_name max_length).

(** Attribute access on an exception of the heap. *)
Definition attrs_of (h : heap) (a : addr) : option fields :=
  match lookup h a with
  | Some (OExc _ _ _ attrs) => Some attrs
  | _ => None
  end.

Definition args_of (h : heap) (a : addr) : option (list value) :=
  match lookup h a with
  | Some (OExc _ args _ _) =>
      match lookup h args with
      | Some (OTuple items) => Some items
      | _ => None
      end
  | _ => None
  end.

Definition cause_of (h : heap) (a : addr) : option value :=
  match lookup h a with
  | Some (OExc _ _ cause _) => Some cause
  | _ => None
  end.

Definition class_of (h : heap) (a : addr) : option Cls.t :=
  match lookup h a with
  | Some (OExc cls _ _ _) => Some cls
  | _ => None
  end.

(** [str(e)] and the attributes of a freshly constructed exception
    [(h, e)]. *)
Definition str_of (fuel : nat) (r : heap * addr) : option string :=
  str fuel (fst r) (VRef (snd r)).

Definition attrs_in (r : heap * addr) : option fields :=
  attrs_of (fst r) (snd r).

Definition args_in (r : heap * addr) : option (list value) :=
  args_of (fst r) (snd r).

(** [raise e from c] for a freshly constructed [e]. *)
Definition from_cause (r : heap * addr) (c : value) : heap * addr :=
  (set_cause (fst r) (snd r) c, snd r).

(** Three integration-lifecycle errors as they are raised in practice:
    [raise ConfigEntryNotReady from ValueError("bad value")],
    [raise PlatformNotReady("boom")] and [raise ConfigEntryAuthFailed]. *)
Definition not_ready_from_value_error : heap * addr :=
  let r0 := Exception_init [] (Cls.Builtin "ValueError") [VStr "bad value"] in
  from_cause (Exception_init (fst r0) Cls.ConfigEntryNotReady [])
    (VRef (snd r0)).

Definition platform_not_ready_boom : heap * addr :=
  Exception_init [] Cls.PlatformNotReady [VStr "boom"].

Definition auth_failed_bare : heap * addr :=
  Exception_init [] Cls.ConfigEntryAuthFailed [].

End Py.

(** ** The rest of the module

    The classes and quantities that the properties further down are about,
    on the same heap. *)

(** One line per Message and per Index node. *)
Fixpoint line_count (e : ConditionError) : nat :=
  match e with
  | ConditionErrorBase _ => 0%nat
  | ConditionErrorMessage _ _ => 1%nat
  | ConditionErrorIndex _ _ _ error => S (line_count error)
  | ConditionErrorContainer _ errors =>
      (fix sum (items : list ConditionError) : nat :=
         match items with
         | [] => 0%nat
         | item :: rest => (line_count item + sum rest)%nat
         end) errors
  end.

Fixpoint line_count_each (items : list ConditionError) : nat :=
  match items with
  | [] => 0%nat
  | item :: rest => (line_count item + line_count_each rest)%nat
  end.

Module Taxonomy.

(** [v.__class__.__name__] *)
Definition type_name (h : Py.heap) (v : Py.value) : option string :=
  match v with
  | Py.VNone => Some "NoneType"
  | Py.VStr _ => Some "str"
  | Py.VInt _ => Some "int"
  | Py.VRef a =>
      match Py.lookup h a with
      | Some (Py.OTuple _) => Some "tuple"
      | Some (Py.OExc cls _ _ _) => Some (Py.class_name cls)
      | None => None
      end
  end.

(** [TemplateError.__init__]: a [str] is the message as it is; anything
    else is formatted as [f"{exception.__class__.__name__}: {exception}"],
    where the replacement field is [str(exception)], taken while the new
    exception is built. *)
Definition TemplateError_init (fuel : nat) (h : Py.heap)
    (exception : Py.value) : option (Py.heap * Py.addr) :=
  match exception with
  | Py.VStr s =>
      Some (Py.new_exception h Py.Cls.TemplateError
              (fun _ => [Py.VStr s]) Py.NoFields)
  | _ =>
      match type_name h exception, Py.str fuel h exception with
      | Some name, Some text =>
          Some (Py.new_exception h Py.Cls.TemplateError
                  (fun _ => [Py.VStr (name ++ ": " ++ text)]) Py.NoFields)
      | _, _ => None
      end
  end.

(** An exception together with the one attribute its [__init__] assigns,
    a list of names. *)
Record with_names : Type := {
  exc : Py.heap * Py.addr;
  names : list string
}.

(** The text that [RequiredParameterMissing.__init__] builds. *)
Definition required_parameter_message (parameter_names : list string)
  : string :=
  "Call must include at least one of the following parameters: "
    ++ join ", " parameter_names.

(** [RequiredParameterMissing.__init__]; [super().__init__(self, (...))],
    then [self.parameter_names = parameter_names]. *)
Definition RequiredParameterMissing_init (h : Py.heap)
    (parameter_names : list string) : with_names :=
  {| exc := Py.new_exception h Py.Cls.RequiredParameterMissing
              (fun self =>
                 [Py.VRef self;
                  Py.VStr (required_parameter_message parameter_names)])
              Py.NoFields;
     names := parameter_names |}.

(** The text that [DependencyError.__init__] builds. *)
Definition dependency_message (failed_dependencies : list string) : string :=
  "Could not setup dependencies: " ++ join ", " failed_dependencies.

(** [DependencyError.__init__]; [super().__init__(self, f"...")], then
    [self.failed_dependencies = failed_dependencies]. *)
Definition DependencyError_init (h : Py.heap)
    (failed_dependencies : list string) : with_names :=
  {| exc := Py.new_exception h Py.Cls.DependencyError
              (fun self =>
                 [Py.VRef self;
                  Py.VStr (dependency_message failed_dependencies)])
              Py.NoFields;
     names := failed_dependencies |}.

(** The classes of the module whose body is a docstring only. *)
Definition plain (c : Py.Cls.t) : bool :=
  match c with
  | Py.Cls.HomeAssistantError | Py.Cls.InvalidEntityFormatError
  | Py.Cls.NoEntitySpecifiedError | Py.Cls.InvalidStateError => true
  | _ => false
  end.

(** [silent h e v n]: [e] is an integration-lifecycle error built without
    argument, and following [__cause__] from it leads, through [n - 1] more
    such errors, to the value [v] (an exception or [None]). *)
Inductive silent (h : Py.heap) : Py.addr -> Py.value -> nat -> Prop :=
| silent_last (e : Py.addr) (cls : Py.Cls.t) (args : Py.addr)
    (cause : Py.value) (attrs : Py.fields) :
    Py.lookup h e = Some (Py.OExc cls args cause attrs) ->
    Py.lifecycle cls = true ->
    Py.lookup h args = Some (Py.OTuple []) ->
    silent h e cause 1
| silent_next (e : Py.addr) (cls : Py.Cls.t) (args : Py.addr)
    (e' : Py.addr) (attrs : Py.fields) (v : Py.value) (n : nat) :
    Py.lookup h e = Some (Py.OExc cls args (Py.VRef e') attrs) ->
    Py.lifecycle cls = true ->
    Py.lookup h args = Some (Py.OTuple []) ->
    silent h e' v n ->
    silent h e v (S n).

(** [h'] holds every object of [h] at its address. *)
Definition extends (h h' : Py.heap) : Prop :=
  forall a o, Py.lookup h a = Some o -> Py.lookup h' a = Some o.

(** Two objects that differ at most in [__cause__]. *)
Definition same_but_cause (o o' : option Py.object) : Prop :=
  match o, o' with
  | None, None => True
  | Some (Py.OTuple items), Some (Py.OTuple items') => items = items'
  | Some (Py.OExc cls args _ attrs), Some (Py.OExc cls' args' _ attrs') =>
      cls = cls' /\ args = args' /\ attrs = attrs'
  | _, _ => False
  end.

(** The heaps [h] and [h'] hold the same objects up to the [__cause__] of
    exceptions whose [__str__] is not that of [IntegrationError]. *)
Definition same_for_str (h h' : Py.heap) : Prop :=
  forall a,
    same_but_cause (Py.lookup h a) (Py.lookup h' a)
    /\ forall cls args cause attrs,
         Py.lookup h a = Some (Py.OExc cls args cause attrs) ->
         Py.str_owner cls = Some Py.Cls.IntegrationError ->
         Py.lookup h' a = Some (Py.OExc cls args cause attrs).

(** [raise PlatformNotReady from e2], where [e2] was raised by
    [raise ConfigEntryNotReady from OSError("disk full")]. *)
Definition not_ready_twice : Py.heap :=
  [Py.OExc (Py.Cls.Builtin "OSError") 1%nat Py.VNone Py.NoFields;
   Py.OTuple [Py.VStr "disk full"];
   Py.OExc Py.Cls.ConfigEntryNotReady 3%nat (Py.VRef 0%nat) Py.NoFields;
   Py.OTuple [];
   Py.OExc Py.Cls.PlatformNotReady 5%nat (Py.VRef 2%nat) Py.NoFields;
   Py.OTuple []].

End Taxonomy.

(** ** Properties *)

(** *** Strings *)

Lemma spaces_app (a b : nat) : spaces (a + b) = spaces a ++ spaces b.
Proof.
  induction a as [|a IH]; simpl; [reflexivity | now rewrite IH].
Qed.

Lemma append_assoc (a b c : string) : (a ++ b) ++ c = a ++ b ++ c.
Proof.
  induction a as [|x a IH]; simpl; [reflexivity | now rewrite IH].
Qed.

(** ["  " * k] is [2k] blanks, and none for a negative [k]. *)
Lemma str_mul_spaces (k : Z) : str_mul "  " k = spaces (2 * Z.to_nat k).
Proof.
  unfold str_mul.
  induction (Z.to_nat k) as [|n IH]; [reflexivity|].
  replace (2 * S n)%nat with (S (S (2 * n))) by lia.
  rewrite Nat.iter_succ, IH. reflexivity.
Qed.

Lemma indent_spaces (k : Z) (message : string) :
  _indent k message = spaces (2 * Z.to_nat k) ++ message.
Proof. unfold _indent. now rewrite str_mul_spaces. Qed.

(** Going [j] levels deeper puts [2j] more blanks in front. *)
Lemma indent_shift (k j : Z) (message : string) :
  0 <= k -> 0 <= j ->
  _indent (k + j) message = spaces (2 * Z.to_nat j) ++ _indent k message.
Proof.
  intros Hk Hj. rewrite !indent_spaces, <- append_assoc, <- spaces_app.
  f_equal. f_equal. lia.
Qed.

(** *** Generators *)

Lemma seq_yield (x : string) (g : Gen.t) :
  Gen.yield x ;; g = (x :: Gen.lines g, Gen.ending g).
Proof. reflexivity. Qed.

Lemma seq_returned (l1 : list string) (g : Gen.t) :
  (l1, Returned) ;; g = ((l1 ++ Gen.lines g)%list, Gen.ending g).
Proof. reflexivity. Qed.

Lemma output_container (type : string) (errors : list ConditionError)
    (indent : Z) :
  output (ConditionErrorContainer type errors) indent
  = output_each errors indent.
Proof.
  simpl. induction errors as [|e r IH]; simpl; [reflexivity | now rewrite IH].
Qed.

Lemma concrete_container (type : string) (errors : list ConditionError) :
  concrete (ConditionErrorContainer type errors) = forallb concrete errors.
Proof.
  simpl. induction errors as [|e r IH]; simpl; [reflexivity | now rewrite IH].
Qed.

(** When every child runs to its end, the loop yields the children's lines
    one after the other and ends normally. *)
Lemma output_each_returned (items : list ConditionError) (indent : Z) :
  Forall (fun e => Gen.ending (output e indent) = Returned) items ->
  output_each items indent
  = (List.concat (map (fun e => Gen.lines (output e indent)) items), Returned).
Proof.
  induction 1 as [|e r He _ IH]; simpl; [reflexivity|].
  rewrite IH. destruct (output e indent) as [l o]. simpl in He. subst o.
  reflexivity.
Qed.

(** A tree without base-class instances renders to the end. *)
Lemma concrete_returns (e : ConditionError) :
  concrete e = true -> forall indent, Gen.ending (output e indent) = Returned.
Proof.
  induction e as [type | type message | type index total error IH
                  | type errors IH] using ConditionError_tree_ind; intros Hc indent.
  - discriminate.
  - reflexivity.
  - simpl in Hc. specialize (IH Hc (indent + 1)).
    cbn [output]. destruct (1 <? total)%Z; rewrite seq_yield; exact IH.
  - rewrite concrete_container in Hc. rewrite output_container.
    rewrite output_each_returned; [reflexivity|].
    rewrite Forall_forall in *. intros x Hx.
    apply IH; [exact Hx|]. rewrite forallb_forall in Hc. now apply Hc.
Qed.

Lemma concrete_children_return (items : list ConditionError) (indent : Z) :
  forallb concrete items = true ->
  Forall (fun e => Gen.ending (output e indent) = Returned) items.
Proof.
  intros H. rewrite forallb_forall in H. apply Forall_forall.
  intros x Hx. apply concrete_returns. now apply H.
Qed.

(** The way a rendering ends does not depend on the indent, and [j] levels
    more of indent put [2j] blanks in front of every line. *)
Lemma output_shift (e : ConditionError) :
  forall k j, 0 <= k -> 0 <= j ->
  output e (k + j)
  = (map (String.append (spaces (2 * Z.to_nat j))) (Gen.lines (output e k)),
     Gen.ending (output e k)).
Proof.
  induction e as [type | type message | type index total error IH
                  | type errors IH] using ConditionError_tree_ind; intros k j Hk Hj.
  - reflexivity.
  - cbn [output]. unfold Gen.yield. simpl. now rewrite indent_shift.
  - cbn [output].
    replace (k + j + 1) with ((k + 1) + j) by lia.
    rewrite (IH (k + 1) j) by lia.
    destruct (1 <? total)%Z; rewrite !seq_yield; simpl;
      now rewrite indent_shift.
  - rewrite !output_container.
    induction IH as [|e r He _ IHr]; [reflexivity|].
    simpl. rewrite IHr, (He k j Hk Hj).
    destruct (output e k) as [l [|ex]]; simpl; [|reflexivity].
    now rewrite map_app.
Qed.

(** *** Rendering of the condition-error tree *)

Example scenario_A_renders :
  __str__ scenario_A =
  Ok ("In 'and' (item 2 of 3):" ++ newline ++
      "  In 'numeric_state' condition: value 12 is not below 10").
Proof. reflexivity. Qed.

Example scenario_B_renders :
  output scenario_B 0 =
  (["In 'state' condition: entity unavailable";
    "In 'time' condition: not in range"], Returned).
Proof. reflexivity. Qed.

(** A negative indent is no indent: below level 0 the nesting no longer
    shows, so the uniform-prefix property C9 is one of levels [k >= 0]. *)
Example negative_indent_flattens :
  Gen.lines (output scenario_A (-1))
  = ["In 'and' (item 2 of 3):";
     "In 'numeric_state' condition: value 12 is not below 10"].
Proof. reflexivity. Qed.

(** The base class can be instantiated; rendering it raises, after the
    lines of the nodes before it. *)
Example base_class_output_raises :
  output (ConditionErrorIndex "not" 0 1 (ConditionErrorBase "x")) 0 =
  (["In 'not':"], Raised NotImplementedError).
Proof. reflexivity. Qed.

(** C1. For an Index node of type [t], index [i], total [n] and inner error
    [inner], rendered at indent level [k]: when [n = 1] the first line is
    [In 't':] after [2k] blanks, when [n > 1] it is
    [In 't' (item i+1 of n):] after [2k] blanks; in both cases the lines
    that follow are exactly those of [inner] rendered at level [k + 1], and
    the rendering ends the way that of [inner] does. *)
Theorem ConditionErrorIndex_output_lines (t : string) (i n : Z)
    (inner : ConditionError) (k : Z) :
  (n = 1 ->
   Gen.lines (output (ConditionErrorIndex t i n inner) k)
   = (spaces (2 * Z.to_nat k) ++ "In '" ++ t ++ "':")
       :: Gen.lines (output inner (k + 1)))
  /\ (1 < n ->
      Gen.lines (output (ConditionErrorIndex t i n inner) k)
      = (spaces (2 * Z.to_nat k) ++ "In '" ++ t ++ "' (item "
           ++ int_str (i + 1) ++ " of " ++ int_str n ++ "):")
          :: Gen.lines (output inner (k + 1)))
  /\ Gen.ending (output (ConditionErrorIndex t i n inner) k)
     = Gen.ending (output inner (k + 1)).
Proof.
  cbn [output]. split; [|split].
  - intros ->. change (1 <? 1)%Z with false. cbv iota.
    rewrite seq_yield, indent_spaces. reflexivity.
  - intros Hn. apply Z.ltb_lt in Hn. rewrite Hn.
    rewrite seq_yield, indent_spaces. reflexivity.
  - destruct (1 <? n)%Z; now rewrite seq_yield.
Qed.

Lemma ConditionErrorIndex_output_lines_witness :
  Gen.lines (output (ConditionErrorIndex "not" 0 1
                       (ConditionErrorMessage "state" "off")) 2)
  = ["    In 'not':"; "      In 'state' condition: off"]
  /\ Gen.lines (output scenario_A 1)
     = ["  In 'and' (item 2 of 3):";
        "    In 'numeric_state' condition: value 12 is not below 10"].
Proof.
  split.
  - exact (proj1 (ConditionErrorIndex_output_lines "not" 0 1
                    (ConditionErrorMessage "state" "off") 2) eq_refl).
  - exact (proj1 (proj2 (ConditionErrorIndex_output_lines "and" 1 3
                    (ConditionErrorMessage "numeric_state"
                       "value 12 is not below 10") 1)) eq_refl).
Defined.

(** C2. A Message node of type [t] and message [m] rendered at level 0
    yields exactly one line, [In 't' condition: m]; rendered at level [n] it
    yields exactly one line, the same text after [2n] blanks. *)
Theorem ConditionErrorMessage_output_line (t m : string) (n : Z) :
  output (ConditionErrorMessage t m) 0
  = (["In '" ++ t ++ "' condition: " ++ m], Returned)
  /\ output (ConditionErrorMessage t m) n
     = ([spaces (2 * Z.to_nat n) ++ "In '" ++ t ++ "' condition: " ++ m],
        Returned).
Proof.
  cbn [output]. unfold Gen.yield. rewrite !indent_spaces. split; reflexivity.
Qed.

(** C3. A Container whose children [e1, e2, ...] are trees of Message,
    Index and Container nodes, rendered at level [k], yields the lines of
    [e1] at level [k], then those of [e2] at level [k], and so on in the
    order of the list, with no line and no indent of its own; a Container
    without children yields no line. *)
Theorem ConditionErrorContainer_output_concat (t : string)
    (es : list ConditionError) (k : Z) :
  (forallb concrete es = true ->
   output (ConditionErrorContainer t es) k
   = (List.concat (map (fun e => Gen.lines (output e k)) es), Returned))
  /\ output (ConditionErrorContainer t []) k = ([], Returned).
Proof.
  split; [|reflexivity].
  intros Hc. rewrite output_container.
  apply output_each_returned, concrete_children_return, Hc.
Qed.

Lemma ConditionErrorContainer_output_concat_witness :
  output (ConditionErrorContainer "or"
            [scenario_A; ConditionErrorMessage "time" "not in range"]) 1
  = (["  In 'and' (item 2 of 3):";
      "    In 'numeric_state' condition: value 12 is not below 10";
      "  In 'time' condition: not in range"], Returned).
Proof.
  exact (proj1 (ConditionErrorContainer_output_concat "or"
                  [scenario_A; ConditionErrorMessage "time" "not in range"] 1)
           eq_refl).
Defined.

(** C4. For every tree of Message, Index and Container nodes, rendering at
    level 0 runs to its end and [str(tree)] is the lines it yields joined
    with the line feed. *)
Theorem ConditionError_str_joins_output (tree : ConditionError) :
  concrete tree = true ->
  exists ls, output tree 0 = (ls, Returned)
             /\ __str__ tree = Ok (join newline ls).
Proof.
  intros Hc. pose proof (concrete_returns tree Hc 0) as Hend.
  unfold __str__. destruct (output tree 0) as [ls o]. simpl in Hend. subst o.
  exists ls. split; reflexivity.
Qed.

Lemma ConditionError_str_joins_output_witness :
  exists ls, output scenario_B 0 = (ls, Returned)
             /\ __str__ scenario_B = Ok (join newline ls).
Proof.
  exact (ConditionError_str_joins_output scenario_B eq_refl).
Defined.

(** C9. For every tree and every indent level [k >= 0], rendering at level
    [k] yields as many lines as rendering at level 0, and its line number
    [i] is [2k] blanks followed by line number [i] of the rendering at
    level 0. *)
Theorem output_indent_uniform (tree : ConditionError) (k : Z) :
  0 <= k ->
  List.length (Gen.lines (output tree k))
  = List.length (Gen.lines (output tree 0))
  /\ forall (i : nat) (line : string),
       nth_error (Gen.lines (output tree 0)) i = Some line ->
       nth_error (Gen.lines (output tree k)) i
       = Some (spaces (2 * Z.to_nat k) ++ line).
Proof.
  intros Hk.
  pose proof (output_shift tree 0 k (Z.le_refl 0) Hk) as H.
  rewrite Z.add_0_l in H.
  assert (Hl : Gen.lines (output tree k)
               = map (String.append (spaces (2 * Z.to_nat k)))
                   (Gen.lines (output tree 0))) by (now rewrite H).
  rewrite Hl. split.
  - apply length_map.
  - intros i line Hi. rewrite nth_error_map, Hi. reflexivity.
Qed.

Lemma output_indent_uniform_witness :
  List.length (Gen.lines (output scenario_A 3))
  = List.length (Gen.lines (output scenario_A 0))
  /\ nth_error (Gen.lines (output scenario_A 3)) 1
     = Some ("      " ++
             "  In 'numeric_state' condition: value 12 is not below 10").
Proof.
  destruct (output_indent_uniform scenario_A 3 ltac:(lia)) as [Hlen Hnth].
  split; [exact Hlen | exact (Hnth 1%nat _ eq_refl)].
Defined.

(** C10. Nothing checks [index < total] or [total >= 1]: the constructor is
    total, and for every index [i] and total [n] (zero, negative, or not
    above [i] included) the rendering of an Index node over a tree of
    Message, Index and Container nodes runs to its end; its first line is
    the header without item, [In 't':], whenever [n <= 1], and the header
    [In 't' (item i+1 of n):] with the numbers as given whenever [n > 1]. *)
Theorem ConditionErrorIndex_unvalidated (t : string) (i n : Z)
    (inner : ConditionError) (k : Z) :
  concrete inner = true ->
  Gen.ending (output (ConditionErrorIndex t i n inner) k) = Returned
  /\ (n <= 1 ->
      hd_error (Gen.lines (output (ConditionErrorIndex t i n inner) k))
      = Some (spaces (2 * Z.to_nat k) ++ "In '" ++ t ++ "':"))
  /\ (1 < n ->
      hd_error (Gen.lines (output (ConditionErrorIndex t i n inner) k))
      = Some (spaces (2 * Z.to_nat k) ++ "In '" ++ t ++ "' (item "
                ++ int_str (i + 1) ++ " of " ++ int_str n ++ "):")).
Proof.
  intros Hc. split; [|split].
  - apply (concrete_returns (ConditionErrorIndex t i n inner) Hc).
  - intros Hn. cbn [output].
    destruct (Z.ltb_spec 1 n) as [Hlt|_]; [lia|].
    rewrite seq_yield, indent_spaces. reflexivity.
  - intros Hn. cbn [output]. apply Z.ltb_lt in Hn. rewrite Hn.
    rewrite seq_yield, indent_spaces. reflexivity.
Qed.

Lemma ConditionErrorIndex_unvalidated_witness :
  (Gen.ending (output (ConditionErrorIndex "and" 5 0
                         (ConditionErrorMessage "state" "off")) 0) = Returned
   /\ hd_error (Gen.lines (output (ConditionErrorIndex "and" 5 0
                                     (ConditionErrorMessage "state" "off")) 0))
      = Some "In 'and':")
  /\ hd_error (Gen.lines (output (ConditionErrorIndex "and" 2 (-3)
                                    (ConditionErrorMessage "state" "off")) 1))
     = Some "  In 'and':"
  /\ hd_error (Gen.lines (output (ConditionErrorIndex "and" 7 2
                                    (ConditionErrorMessage "state" "off")) 0))
     = Some "In 'and' (item 8 of 2):".
Proof.
  pose proof (ConditionErrorIndex_unvalidated "and" 5 0
                (ConditionErrorMessage "state" "off") 0 eq_refl) as [H1 [H2 _]].
  pose proof (ConditionErrorIndex_unvalidated "and" 2 (-3)
                (ConditionErrorMessage "state" "off") 1 eq_refl) as [_ [H3 _]].
  pose proof (ConditionErrorIndex_unvalidated "and" 7 2
                (ConditionErrorMessage "state" "off") 0 eq_refl) as [_ [_ H4]].
  exact (conj (conj H1 (H2 ltac:(lia)))
            (conj (H3 ltac:(lia)) (H4 ltac:(lia)))).
Defined.

(** *** The heap *)

Lemma lookup_new_self (h : Py.heap) (o1 o2 : Py.object) :
  Py.lookup (h ++ [o1; o2])%list (List.length h) = Some o1.
Proof.
  unfold Py.lookup. rewrite nth_error_app2 by lia.
  now rewrite Nat.sub_diag.
Qed.

Lemma lookup_new_args (h : Py.heap) (o1 o2 : Py.object) :
  Py.lookup (h ++ [o1; o2])%list (S (List.length h)) = Some o2.
Proof.
  unfold Py.lookup. rewrite nth_error_app2 by lia.
  replace (S (List.length h) - List.length h)%nat with 1%nat by lia.
  reflexivity.
Qed.

Lemma attrs_in_new (h : Py.heap) (cls : Py.Cls.t)
    (mk_args : Py.addr -> list Py.value) (attrs : Py.fields) :
  Py.attrs_in (Py.new_exception h cls mk_args attrs) = Some attrs.
Proof.
  unfold Py.attrs_in, Py.attrs_of, Py.new_exception. simpl fst. simpl snd.
  now rewrite lookup_new_self.
Qed.

Lemma args_in_new (h : Py.heap) (cls : Py.Cls.t)
    (mk_args : Py.addr -> list Py.value) (attrs : Py.fields) :
  Py.args_in (Py.new_exception h cls mk_args attrs)
  = Some (mk_args (List.length h)).
Proof.
  unfold Py.args_in, Py.args_of, Py.new_exception. simpl fst. simpl snd.
  now rewrite lookup_new_self, lookup_new_args.
Qed.

(** One step of [str] and [repr] on a reference, by the kind of object
    it points to. *)

Lemma str_step_tuple (fuel : nat) (h : Py.heap) (a : Py.addr)
    (items : list Py.value) :
  Py.lookup h a = Some (Py.OTuple items) ->
  Py.str (S fuel) h (Py.VRef a) = Py.repr fuel h [] (Py.VRef a).
Proof. intros H. cbn [Py.str]. now rewrite H. Qed.

Lemma str_step_base (fuel : nat) (h : Py.heap) (a : Py.addr) (cls : Py.Cls.t)
    (args : Py.addr) (cause : Py.value) (attrs : Py.fields) :
  Py.lookup h a = Some (Py.OExc cls args cause attrs) ->
  Py.str_owner cls = None ->
  Py.str (S fuel) h (Py.VRef a)
  = Py.BaseException_str (Py.str fuel h) h args.
Proof. intros H Hc. cbn [Py.str]. now rewrite H, Hc. Qed.

Lemma str_step_integration (fuel : nat) (h : Py.heap) (a : Py.addr)
    (cls : Py.Cls.t) (args : Py.addr) (cause : Py.value)
    (attrs : Py.fields) :
  Py.lookup h a = Some (Py.OExc cls args cause attrs) ->
  Py.str_owner cls = Some Py.Cls.IntegrationError ->
  Py.str (S fuel) h (Py.VRef a)
  = match Py.BaseException_str (Py.str fuel h) h args with
    | Some EmptyString => Py.str fuel h cause
    | r => r
    end.
Proof. intros H Hc. cbn [Py.str]. now rewrite H, Hc. Qed.

Lemma repr_step_tuple (fuel : nat) (h : Py.heap) (active : list Py.addr)
    (a : Py.addr) (x : Py.value) (xs : list Py.value) :
  Py.lookup h a = Some (Py.OTuple (x :: xs)) ->
  Py.repr (S fuel) h active (Py.VRef a)
  = if existsb (Nat.eqb a) active then Some "(...)"
    else match Py.traverse (Py.repr fuel h (a :: active)) (x :: xs) with
         | None => None
         | Some [r] => Some ("(" ++ r ++ ",)")
         | Some rs => Some ("(" ++ join ", " rs ++ ")")
         end.
Proof. intros H. cbn [Py.repr]. now rewrite H. Qed.

Lemma repr_step_exception (fuel : nat) (h : Py.heap)
    (active : list Py.addr) (a : Py.addr) (cls : Py.Cls.t) (args : Py.addr)
    (cause : Py.value) (attrs : Py.fields) (x y : Py.value)
    (r : list Py.value) :
  Py.lookup h a = Some (Py.OExc cls args cause attrs) ->
  Py.lookup h args = Some (Py.OTuple (x :: y :: r)) ->
  Py.repr (S fuel) h active (Py.VRef a)
  = match Py.repr fuel h active (Py.VRef args) with
    | Some s => Some (Py.class_name cls ++ s)
    | None => None
    end.
Proof. intros H Ha. cbn [Py.repr]. now rewrite H, Ha. Qed.

(** More fuel never changes a result. *)

Lemma traverse_mono {A B : Type} (f g : A -> option B) (l : list A) :
  (forall x y, f x = Some y -> g x = Some y) ->
  forall ys, Py.traverse f l = Some ys -> Py.traverse g l = Some ys.
Proof.
  intros Hfg. induction l as [|x r IH]; intros ys H; [exact H|].
  cbn [Py.traverse] in *.
  destruct (f x) as [y|] eqn:Hx; [|discriminate].
  destruct (Py.traverse f r) as [ys'|]; [|discriminate].
  now rewrite (Hfg _ _ Hx), (IH _ eq_refl).
Qed.

Lemma repr_fuel_mono (fuel : nat) :
  forall h active v s,
    Py.repr fuel h active v = Some s -> Py.repr (S fuel) h active v = Some s.
Proof.
  induction fuel as [|fuel IH]; intros h active v s H; [discriminate|].
  destruct v as [| | |a]; try exact H.
  cbn [Py.repr] in H. remember (S fuel) as n eqn:En in IH |- *.
  cbn [Py.repr].
  destruct (Py.lookup h a) as [[items|cls args cause attrs]|]; [| |exact H].
  - destruct items as [|x0 xs]; [exact H|].
    destruct (existsb (Nat.eqb a) active); [exact H|].
    destruct (Py.traverse (Py.repr fuel h (a :: active)) (x0 :: xs))
      as [rs|] eqn:T; [|discriminate].
    now rewrite (traverse_mono _ (Py.repr n h (a :: active)) _
                   (IH h (a :: active)) _ T).
  - destruct (Py.lookup h args) as [[[|x [|y r]]|]|]; try exact H.
    + destruct (Py.repr fuel h active (Py.VRef args)) eqn:R; [|discriminate].
      now rewrite (IH _ _ _ _ R).
    + destruct (Py.repr fuel h active x) eqn:R; [|discriminate].
      now rewrite (IH _ _ _ _ R).
    + destruct (Py.repr fuel h active (Py.VRef args)) eqn:R; [|discriminate].
      now rewrite (IH _ _ _ _ R).
Qed.

Lemma str_fuel_mono (fuel : nat) :
  forall h v s, Py.str fuel h v = Some s -> Py.str (S fuel) h v = Some s.
Proof.
  induction fuel as [|fuel IH]; intros h v s H; [discriminate|].
  destruct v as [| | |a]; try exact H.
  cbn [Py.str] in H. remember (S fuel) as n eqn:En in IH |- *.
  cbn [Py.str].
  destruct (Py.lookup h a) as [[items|cls args cause attrs]|]; [| |exact H].
  - subst n. now apply repr_fuel_mono.
  - assert (Hbase : forall r,
               Py.BaseException_str (Py.str fuel h) h args = Some r ->
               Py.BaseException_str (Py.str n h) h args = Some r).
    { unfold Py.BaseException_str.
      destruct (Py.lookup h args) as [[[|x [|y r]]|]|]; intros r' Hr;
        try exact Hr; now apply IH. }
    destruct (Py.str_owner cls) as [[]|]; try exact H;
      try (now apply Hbase).
    destruct (Py.BaseException_str (Py.str fuel h) h args) as [b|];
      [|discriminate].
    rewrite (Hbase b eq_refl). destruct b; [now apply IH | exact H].
Qed.

Lemma str_fuel_le (fuel fuel' : nat) (h : Py.heap) (v : Py.value)
    (s : string) :
  (fuel <= fuel')%nat -> Py.str fuel h v = Some s -> Py.str fuel' h v = Some s.
Proof.
  induction 1 as [|m _ IH]; [trivial|].
  intros H. now apply str_fuel_mono, IH.
Qed.

(** *** The taxonomy *)

(** C7. An [Unauthorized] (or [UnknownUser]) built with a context [c] and
    no user id stores the user id of [c]; built with a user id [u] it
    stores [u] whatever the context; [entity_id], [config_entry_id],
    [perm_category] and [permission] are stored as passed in every case,
    with or without context; and its string form is the name of its own
    class: [Unauthorized], respectively [UnknownUser]. *)
Theorem Unauthorized_fields_and_str (h : Py.heap) (cls : Py.Cls.t)
    (c : Py.Context) (ctx : option Py.Context) (u : string)
    (uid e ce pc p : option string) (fuel : nat) :
  Py.attrs_in (Py.Unauthorized_init h cls (Some c) None e ce pc p)
  = Some (Py.UnauthorizedFields (Some c) (Py.ctx_user_id c) e ce pc p)
  /\ Py.attrs_in (Py.Unauthorized_init h cls ctx (Some u) e ce pc p)
     = Some (Py.UnauthorizedFields ctx (Some u) e ce pc p)
  /\ Py.attrs_in (Py.Unauthorized_init h cls None uid e ce pc p)
     = Some (Py.UnauthorizedFields None uid e ce pc p)
  /\ Py.str_of (2 + fuel)
       (Py.Unauthorized_init h Py.Cls.Unauthorized ctx uid e ce pc p)
     = Some "Unauthorized"
  /\ Py.str_of (2 + fuel)
       (Py.Unauthorized_init h Py.Cls.UnknownUser ctx uid e ce pc p)
     = Some "UnknownUser".
Proof.
  unfold Py.Unauthorized_init. rewrite !attrs_in_new.
  split; [reflexivity|]. split; [reflexivity|].
  split; [now destruct uid|].
  unfold Py.str_of, Py.new_exception. simpl fst. simpl snd.
  split; cbn [Py.str Nat.add]; rewrite lookup_new_self;
    cbv [Py.str_owner Py.str_owner_from Py.defines_str Py.base
         Py.BaseException_str]; rewrite lookup_new_args; reflexivity.
Qed.

(** Scenario E of the specification. *)
Example scenario_E :
  let r := Py.Unauthorized_init [] Py.Cls.Unauthorized
             (Some {| Py.ctx_user_id := Some "u1" |})
             None (Some "light.kitchen") None None None in
  Py.attrs_in r
  = Some (Py.UnauthorizedFields (Some {| Py.ctx_user_id := Some "u1" |})
            (Some "u1") (Some "light.kitchen") None None None)
  /\ Py.str_of 2 r = Some "Unauthorized".
Proof. split; reflexivity. Qed.

(** C8. [ServiceNotFound(d, s)] has the string form
    [Unable to find service d.s] and carries [domain = d] and
    [service = s]; [ServiceNotFound("light", "turn_on")] has the string form
    [Unable to find service light.turn_on]. *)
Theorem ServiceNotFound_str_and_fields (h : Py.heap) (d s : string)
    (fuel : nat) :
  Py.str_of (1 + fuel) (Py.ServiceNotFound_init h d s)
  = Some ("Unable to find service " ++ d ++ "." ++ s)
  /\ Py.attrs_in (Py.ServiceNotFound_init h d s)
     = Some (Py.ServiceNotFoundFields d s)
  /\ Py.str_of 1 (Py.ServiceNotFound_init [] "light" "turn_on")
     = Some "Unable to find service light.turn_on".
Proof.
  unfold Py.ServiceNotFound_init. rewrite attrs_in_new.
  split; [|split; reflexivity].
  unfold Py.str_of, Py.new_exception. simpl fst. simpl snd.
  cbn [Py.str Nat.add]. rewrite lookup_new_self. reflexivity.
Qed.

(** [MaxLengthExceeded.__init__] hands the text to the base initialiser as
    its second argument, after the exception itself. *)
Lemma MaxLengthExceeded_args (h : Py.heap) (v p : string) (L : Z) :
  Py.args_in (Py.MaxLengthExceeded_init h v p L)
  = Some [Py.VRef (List.length h); Py.VStr (Py.max_length_message v p L)].
Proof. unfold Py.MaxLengthExceeded_init. now rewrite args_in_new. Qed.

(** With two arguments, [BaseException.__str__] renders the [args] tuple:
    the string form is the [repr] of [(self, text)], in which [self] shows
    as [MaxLengthExceeded(...)] because its own [args] are the tuple being
    rendered. *)
Lemma MaxLengthExceeded_str (h : Py.heap) (v p : string) (L : Z)
    (fuel : nat) :
  Py.str_of (5 + fuel) (Py.MaxLengthExceeded_init h v p L)
  = Some ("(MaxLengthExceeded(...), "
            ++ Py.str_repr (Py.max_length_message v p L) ++ ")").
Proof.
  unfold Py.str_of, Py.MaxLengthExceeded_init, Py.new_exception.
  simpl fst. simpl snd.
  set (self := List.length h).
  set (msg := Py.max_length_message v p L).
  set (exc := Py.OExc Py.Cls.MaxLengthExceeded (S self) Py.VNone
                (Py.MaxLengthExceededFields v p L)).
  set (h' := (h ++ [exc; Py.OTuple [Py.VRef self; Py.VStr msg]])%list).
  assert (Hself : Py.lookup h' self = Some exc)
    by apply lookup_new_self.
  assert (Hargs : Py.lookup h' (S self)
                  = Some (Py.OTuple [Py.VRef self; Py.VStr msg]))
    by apply lookup_new_args.
  change (5 + fuel)%nat with (S (S (S (S (S fuel))))).
  (* BaseException.__str__ on two arguments: str(self.args) *)
  rewrite (str_step_base _ _ _ _ _ _ _ Hself eq_refl).
  unfold Py.BaseException_str. rewrite Hargs.
  rewrite (str_step_tuple _ _ _ _ Hargs).
  (* tuplerepr, entering the tuple *)
  rewrite (repr_step_tuple _ _ _ _ _ _ Hargs).
  cbn [existsb Py.traverse].
  (* repr(self) meets the tuple again *)
  rewrite (repr_step_exception _ _ _ _ _ _ _ _ _ _ _ Hself Hargs).
  rewrite (repr_step_tuple _ _ _ _ _ _ Hargs).
  cbn [existsb]. rewrite Nat.eqb_refl. cbn [orb].
  reflexivity.
Qed.

(** The string form is never the text that [__init__] builds. *)
Lemma MaxLengthExceeded_str_not_message (h : Py.heap) (v p : string) (L : Z)
    (fuel : nat) :
  Py.str_of (5 + fuel) (Py.MaxLengthExceeded_init h v p L)
  <> Some (Py.max_length_message v p L).
Proof.
  rewrite MaxLengthExceeded_str. unfold Py.max_length_message.
  intros H. injection H as H. cbn [String.append] in H. discriminate H.
Qed.

(** C5, on the code. [str(MaxLengthExceeded("abc...", "name", 10))] is the
    rendering of the two-element [args] tuple and not the message
    [Value abc... for property name has a max length of 10 characters],
    which is only the second element of [args]. *)
Theorem MaxLengthExceeded_scenario_D :
  let r := Py.MaxLengthExceeded_init [] "abc..." "name" 10 in
  Py.str_of 5 r
  = Some ("(MaxLengthExceeded(...), " ++
          "'Value abc... for property name has a max length of 10 characters')")
  /\ Py.str_of 5 r
     <> Some "Value abc... for property name has a max length of 10 characters"
  /\ Py.args_in r
     = Some [Py.VRef 0%nat;
             Py.VStr
               "Value abc... for property name has a max length of 10 characters"].
Proof.
  split; [reflexivity|]. split; [|reflexivity].
  intros H. vm_compute in H. discriminate H.
Qed.

(** The claim C6 as written fails: a [PlatformNotReady] raised with neither
    a message nor a cause has the string form [None], and no amount of fuel
    makes it the empty string. *)
Lemma IntegrationError_str_no_message_no_cause :
  let r := Py.Exception_init [] Py.Cls.PlatformNotReady [] in
  Py.args_in r = Some []
  /\ Py.cause_of (fst r) (snd r) = Some Py.VNone
  /\ Py.str_of 3 r = Some "None"
  /\ forall fuel, Py.str_of fuel r <> Some "".
Proof.
  split; [reflexivity|]. split; [reflexivity|]. split; [reflexivity|].
  intros [|[|[|fuel]]]; cbn; discriminate.
Qed.

(** C6, as the code has it. A [PlatformNotReady], [ConfigEntryNotReady] or
    [ConfigEntryAuthFailed] built with a single non-empty message has that
    message as its string form; built with no argument or with the empty
    message, its string form is the string form of its [__cause__]: that of
    the wrapped cause when there is one, and the text [None] when there is
    none. *)
Theorem IntegrationError_str_message_or_cause (h : Py.heap) (e : Py.addr)
    (cls : Py.Cls.t) (args : Py.addr) (cause : Py.value) (attrs : Py.fields)
    (items : list Py.value) (fuel : nat) :
  Py.lookup h e = Some (Py.OExc cls args cause attrs) ->
  Py.lifecycle cls = true ->
  Py.lookup h args = Some (Py.OTuple items) ->
  (forall m, items = [Py.VStr m] -> m <> "" ->
             Py.str (2 + fuel) h (Py.VRef e) = Some m)
  /\ (items = [] \/ items = [Py.VStr ""] ->
      forall c s, cause = Py.VRef c ->
                  Py.str (1 + fuel) h (Py.VRef c) = Some s ->
                  Py.str (2 + fuel) h (Py.VRef e) = Some s)
  /\ (items = [] \/ items = [Py.VStr ""] ->
      cause = Py.VNone ->
      Py.str (2 + fuel) h (Py.VRef e) = Some "None").
Proof.
  intros He Hcls Hargs.
  assert (Hown : Py.str_owner cls = Some Py.Cls.IntegrationError)
    by (destruct cls; try discriminate Hcls; reflexivity).
  change (2 + fuel)%nat with (S (1 + fuel)).
  rewrite (str_step_integration _ _ _ _ _ _ _ He Hown).
  unfold Py.BaseException_str. rewrite Hargs.
  split; [|split].
  - intros m -> Hm.
    change (Py.str (1 + fuel) h (Py.VStr m)) with (Some m).
    destruct m; [contradiction | reflexivity].
  - intros [-> | ->] c s -> Hc; exact Hc.
  - intros [-> | ->] ->; reflexivity.
Qed.

Lemma IntegrationError_str_message_or_cause_witness :
  Py.str_of 3 Py.not_ready_from_value_error = Some "bad value"
  /\ Py.str_of 2 Py.platform_not_ready_boom = Some "boom"
  /\ Py.str_of 2 Py.auth_failed_bare = Some "None".
Proof.
  split; [|split].
  - exact (proj1 (proj2 (IntegrationError_str_message_or_cause
             (fst Py.not_ready_from_value_error) 2%nat
             Py.Cls.ConfigEntryNotReady 3%nat (Py.VRef 0%nat)
             Py.NoFields [] 1%nat eq_refl eq_refl eq_refl))
             (or_introl eq_refl) 0%nat "bad value" eq_refl eq_refl).
  - refine (proj1 (IntegrationError_str_message_or_cause
             (fst Py.platform_not_ready_boom) 0%nat
             Py.Cls.PlatformNotReady 1%nat Py.VNone
             Py.NoFields [Py.VStr "boom"] 0%nat eq_refl eq_refl eq_refl)
             "boom" eq_refl _).
    discriminate.
  - exact (proj2 (proj2 (IntegrationError_str_message_or_cause
             (fst Py.auth_failed_bare) 0%nat
             Py.Cls.ConfigEntryAuthFailed 1%nat Py.VNone
             Py.NoFields [] 0%nat eq_refl eq_refl eq_refl))
             (or_introl eq_refl) eq_refl).
Defined.

(** *** Further properties of the rendering *)

Lemma seq_ending (g1 g2 : Gen.t) :
  Gen.ending (g1 ;; g2)
  = match Gen.ending g1 with
    | Returned => Gen.ending g2
    | Raised e => Raised e
    end.
Proof. destruct g1 as [l [|e]]; reflexivity. Qed.

Lemma seq_lines (g1 g2 : Gen.t) :
  Gen.lines (g1 ;; g2)
  = match Gen.ending g1 with
    | Returned => (Gen.lines g1 ++ Gen.lines g2)%list
    | Raised _ => Gen.lines g1
    end.
Proof. destruct g1 as [l [|e]]; reflexivity. Qed.

Lemma seq_assoc (g1 g2 g3 : Gen.t) : (g1 ;; g2) ;; g3 = g1 ;; (g2 ;; g3).
Proof.
  destruct g1 as [l1 [|e1]]; [|reflexivity].
  destruct g2 as [l2 [|e2]]; [|reflexivity].
  destruct g3 as [l3 o3]. unfold Gen.seq. simpl. now rewrite app_assoc.
Qed.

Lemma seq_stop_r (g : Gen.t) : g ;; Gen.stop = g.
Proof.
  destruct g as [l [|e]]; [|reflexivity].
  unfold Gen.seq, Gen.stop. simpl. now rewrite app_nil_r.
Qed.

Lemma output_each_app (xs ys : list ConditionError) (k : Z) :
  output_each (xs ++ ys) k = output_each xs k ;; output_each ys k.
Proof.
  induction xs as [|x xs IH]; simpl.
  - now destruct (output_each ys k).
  - now rewrite IH, seq_assoc.
Qed.

Lemma line_count_container (type : string) (errors : list ConditionError) :
  line_count (ConditionErrorContainer type errors) = line_count_each errors.
Proof.
  simpl. induction errors as [|e r IH]; simpl; [reflexivity | now rewrite IH].
Qed.

(** A rendering ends by raising exactly when the tree holds an instance of
    the base class. *)
Lemma ending_by_concrete (e : ConditionError) :
  forall k, Gen.ending (output e k)
            = if concrete e then Returned else Raised NotImplementedError.
Proof.
  induction e as [type | type message | type index total error IH
                  | type errors IH] using ConditionError_tree_ind; intros k.
  - reflexivity.
  - reflexivity.
  - cbn [output concrete]. rewrite seq_ending.
    destruct (1 <? total)%Z; apply IH.
  - rewrite output_container, concrete_container.
    induction IH as [|e r He _ IHr]; [reflexivity|].
    cbn [output_each forallb]. rewrite seq_ending, He, IHr.
    now destruct (concrete e).
Qed.

(** X1. Rendering a tree at any level ends normally when the tree is made
    of Message, Index and Container nodes only, and raises
    [NotImplementedError] when an instance of the base class [ConditionError]
    sits anywhere in it; [str(tree)] is the joined lines in the first case
    and raises the same error in the second. *)
Theorem rendering_raises_iff_base_instance (tree : ConditionError) (k : Z) :
  Gen.ending (output tree k)
  = (if concrete tree then Returned else Raised NotImplementedError)
  /\ __str__ tree
     = (if concrete tree
        then Ok (join newline (Gen.lines (output tree 0)))
        else Err NotImplementedError).
Proof.
  split; [apply ending_by_concrete|].
  pose proof (ending_by_concrete tree 0) as H. unfold __str__.
  destruct (output tree 0) as [ls o]. simpl in H. subst o.
  now destruct (concrete tree).
Qed.

(** X2. A rendering never yields more lines than the tree has Message and
    Index nodes, whatever the level; it yields exactly that many when the
    tree has no base-class instance. *)
Theorem output_line_count (tree : ConditionError) (k : Z) :
  (List.length (Gen.lines (output tree k)) <= line_count tree)%nat
  /\ (concrete tree = true ->
      List.length (Gen.lines (output tree k)) = line_count tree).
Proof.
  revert k.
  induction tree as [type | type message | type index total error IH
                     | type errors IH] using ConditionError_tree_ind;
    intros k.
  - split; [apply Nat.le_refl | discriminate].
  - split; [apply Nat.le_refl | reflexivity].
  - destruct (IH (k + 1)) as [Hle Heq]. cbn [output line_count concrete].
    destruct (1 <? total)%Z; rewrite seq_yield; unfold Gen.lines in *;
      cbn [fst List.length]; (split; [lia | intros Hc; now rewrite (Heq Hc)]).
  - rewrite output_container, line_count_container, concrete_container.
    induction IH as [|e r He _ IHr]; [split; [apply Nat.le_refl|reflexivity]|].
    destruct (He k) as [Hle Heq]. destruct IHr as [Hle' Heq'].
    cbn [output_each line_count_each forallb]. rewrite seq_lines.
    rewrite ending_by_concrete. split.
    + destruct (concrete e); [rewrite length_app|]; lia.
    + intros Hc. apply andb_true_iff in Hc as [Hc1 Hc2]. rewrite Hc1.
      rewrite length_app, (Heq Hc1), (Heq' Hc2). reflexivity.
Qed.

Lemma output_line_count_witness :
  List.length (Gen.lines (output scenario_A 4)) = 2%nat.
Proof.
  exact (proj2 (output_line_count scenario_A 4) eq_refl).
Defined.

(** X3. A container over the list [xs ++ ys] renders as a container over
    [xs] followed by a container over [ys]; the [type] of a container plays
    no part in its rendering. *)
Theorem container_output_app (a b c : string) (xs ys : list ConditionError)
    (k : Z) :
  output (ConditionErrorContainer a (xs ++ ys)) k
  = output (ConditionErrorContainer b xs) k
    ;; output (ConditionErrorContainer c ys) k.
Proof. rewrite !output_container. apply output_each_app. Qed.

(** X4. A container nested in a container is transparent: the children of
    the inner one render as if they stood in its place in the outer
    one. *)
Theorem container_output_flatten (t t' : string)
    (xs ys zs : list ConditionError) (k : Z) :
  output (ConditionErrorContainer t
            (xs ++ ConditionErrorContainer t' ys :: zs)) k
  = output (ConditionErrorContainer t (xs ++ ys ++ zs)) k.
Proof.
  rewrite !output_container, !output_each_app. cbn [output_each].
  now rewrite output_container.
Qed.

(** X5. When the first child of a container that holds a base-class
    instance is [b], after children [xs] free of them, the container
    yields the lines of [xs] and what [b] yields before it raises, then
    raises [NotImplementedError]: the children [ys] after [b] are never
    rendered. *)
Theorem container_output_stops_at_base (t : string)
    (xs ys : list ConditionError) (b : ConditionError) (k : Z) :
  forallb concrete xs = true ->
  concrete b = false ->
  output (ConditionErrorContainer t (xs ++ b :: ys)) k
  = ((List.concat (map (fun e => Gen.lines (output e k)) xs)
        ++ Gen.lines (output b k))%list,
     Raised NotImplementedError).
Proof.
  intros Hxs Hb. rewrite output_container, output_each_app.
  rewrite (output_each_returned xs k (concrete_children_return xs k Hxs)).
  cbn [output_each]. rewrite seq_returned.
  pose proof (ending_by_concrete b k) as He. rewrite Hb in He.
  destruct (output b k) as [l o]. simpl in He. subst o. reflexivity.
Qed.

Lemma container_output_stops_at_base_witness :
  output (ConditionErrorContainer "or"
            ([ConditionErrorMessage "state" "off"]
               ++ ConditionErrorIndex "not" 0 1 (ConditionErrorBase "x")
               :: [ConditionErrorMessage "time" "late"])) 0
  = (["In 'state' condition: off"; "In 'not':"], Raised NotImplementedError).
Proof.
  exact (container_output_stops_at_base "or"
           [ConditionErrorMessage "state" "off"]
           [ConditionErrorMessage "time" "late"]
           (ConditionErrorIndex "not" 0 1 (ConditionErrorBase "x")) 0
           eq_refl eq_refl).
Defined.

(** X6. Every line that a rendering at level [k] yields is a text starting
    with [In '] indented to some level [j >= k]: no line is blank, and none
    is indented less than asked. *)
Theorem output_lines_indented (tree : ConditionError) (k : Z)
    (line : string) :
  In line (Gen.lines (output tree k)) ->
  exists (j : Z) (rest : string),
    k <= j /\ line = _indent j ("In '" ++ rest).
Proof.
  revert k.
  induction tree as [type | type message | type index total error IH
                     | type errors IH] using ConditionError_tree_ind;
    intros k Hin.
  - destruct Hin.
  - destruct Hin as [<- | []]. exists k. eexists. split; [lia | reflexivity].
  - cbn [output] in Hin.
    assert (Hcase : (exists rest, line = _indent k ("In '" ++ rest))
                    \/ In line (Gen.lines (output error (k + 1)))).
    { destruct (1 <? total)%Z; rewrite seq_yield in Hin;
        destruct Hin as [<- | Hin]; eauto. }
    destruct Hcase as [[rest ->] | Hin'].
    + exists k, rest. split; [lia | reflexivity].
    + destruct (IH (k + 1) Hin') as (j & rest & Hj & ->).
      exists j, rest. split; [lia | reflexivity].
  - rewrite output_container in Hin.
    induction IH as [|e r He _ IHr]; [destruct Hin|].
    cbn [output_each] in Hin. rewrite seq_lines in Hin.
    destruct (Gen.ending (output e k)).
    + apply in_app_or in Hin as [Hin | Hin]; [now apply He | now apply IHr].
    + now apply He.
Qed.

Lemma output_lines_indented_witness :
  exists (j : Z) (rest : string),
    1 <= j
    /\ "    In 'numeric_state' condition: value 12 is not below 10"
       = _indent j ("In '" ++ rest).
Proof.
  exact (output_lines_indented scenario_A 1 _ (or_intror (or_introl eq_refl))).
Defined.

(** X7. The string form of an Index node over a tree without base-class
    instance is its header line followed by the lines of the inner tree,
    each indented by two more blanks, joined with line feeds. *)
Theorem ConditionErrorIndex_str (t : string) (i n : Z)
    (inner : ConditionError) :
  concrete inner = true ->
  __str__ (ConditionErrorIndex t i n inner)
  = Ok (join newline
          ((if (1 <? n)%Z
            then "In '" ++ t ++ "' (item " ++ int_str (i + 1) ++ " of "
                   ++ int_str n ++ "):"
            else "In '" ++ t ++ "':")
             :: map (String.append "  ") (Gen.lines (output inner 0)))).
Proof.
  intros Hc. unfold __str__. cbn [output].
  rewrite (output_shift inner 0 1) by lia.
  rewrite (concrete_returns inner Hc 0).
  destruct (1 <? n)%Z; reflexivity.
Qed.

Lemma ConditionErrorIndex_str_witness :
  __str__ (ConditionErrorIndex "or" 0 2 scenario_A)
  = Ok ("In 'or' (item 1 of 2):" ++ newline ++
        "  In 'and' (item 2 of 3):" ++ newline ++
        "    In 'numeric_state' condition: value 12 is not below 10").
Proof.
  exact (ConditionErrorIndex_str "or" 0 2 scenario_A eq_refl).
Defined.

Lemma length_append (a b : string) :
  String.length (a ++ b) = (String.length a + String.length b)%nat.
Proof. induction a as [|c a IH]; simpl; [reflexivity | now rewrite IH]. Qed.

Lemma length_spaces (n : nat) : String.length (spaces n) = n.
Proof. induction n as [|n IH]; simpl; [reflexivity | now rewrite IH]. Qed.

(** X8. [_indent] puts exactly [2 * indent] characters in front of the
    message when [indent] is positive, and returns the message unchanged
    when [indent] is zero or negative. *)
Theorem indent_length_and_nonpositive (k : Z) (message : string) :
  String.length (_indent k message)
  = (2 * Z.to_nat k + String.length message)%nat
  /\ (k <= 0 -> _indent k message = message).
Proof.
  rewrite indent_spaces, length_append, length_spaces.
  split; [reflexivity|].
  intros Hk. replace (Z.to_nat k) with 0%nat by lia. reflexivity.
Qed.

Lemma indent_length_and_nonpositive_witness :
  _indent (-2) "In 'and':" = "In 'and':".
Proof.
  exact (proj2 (indent_length_and_nonpositive (-2) "In 'and':") ltac:(lia)).
Defined.

(** *** Further properties of the taxonomy *)

Lemma traverse_ext {A B : Type} (f g : A -> option B) (l : list A) :
  (forall x, f x = g x) -> Py.traverse f l = Py.traverse g l.
Proof.
  intros H. induction l as [|x r IH]; [reflexivity|].
  cbn [Py.traverse]. now rewrite H, IH.
Qed.

(** [repr] never reads [__cause__]. *)
Lemma repr_same_but_cause (h h' : Py.heap) :
  (forall a, Taxonomy.same_but_cause (Py.lookup h a) (Py.lookup h' a)) ->
  forall fuel active v, Py.repr fuel h' active v = Py.repr fuel h active v.
Proof.
  intros Hs. induction fuel as [|fuel IH]; intros active v; [reflexivity|].
  destruct v as [| | |a]; try reflexivity. cbn [Py.repr].
  pose proof (Hs a) as Ha.
  destruct (Py.lookup h a) as [[items|cls args cause attrs]|],
           (Py.lookup h' a) as [[items'|cls' args' cause' attrs']|];
    simpl in Ha; try contradiction; [| |reflexivity].
  - subst items'. destruct items as [|x xs]; [reflexivity|].
    destruct (existsb (Nat.eqb a) active); [reflexivity|].
    now rewrite (traverse_ext _ _ (x :: xs) (IH (a :: active))).
  - destruct Ha as (<- & <- & <-). pose proof (Hs args) as Hargs.
    destruct (Py.lookup h args) as [[items|c1 a1 k1 f1]|],
             (Py.lookup h' args) as [[items'|c2 a2 k2 f2]|];
      simpl in Hargs; try contradiction; try reflexivity.
    subst items'. destruct items as [|x [|y r]]; now rewrite IH.
Qed.

(** [str] reads [__cause__] through [IntegrationError.__str__] only. *)
Lemma str_same_for_str (h h' : Py.heap) :
  Taxonomy.same_for_str h h' ->
  forall fuel v, Py.str fuel h' v = Py.str fuel h v.
Proof.
  intros Hs.
  assert (Hrepr : forall fuel active v,
             Py.repr fuel h' active v = Py.repr fuel h active v)
    by (apply repr_same_but_cause; intros a; apply Hs).
  induction fuel as [|fuel IH]; intros v; [reflexivity|].
  destruct v as [| | |a]; try reflexivity. cbn [Py.str].
  destruct (Hs a) as [Ha Hint].
  assert (Hbase : forall args,
             Py.BaseException_str (Py.str fuel h') h' args
             = Py.BaseException_str (Py.str fuel h) h args).
  { intros args. unfold Py.BaseException_str. destruct (Hs args) as [Hargs _].
    destruct (Py.lookup h args) as [[items|c1 a1 k1 f1]|],
             (Py.lookup h' args) as [[items'|c2 a2 k2 f2]|];
      simpl in Hargs; try contradiction; try reflexivity.
    subst items'. destruct items as [|x [|y r]]; [reflexivity| |]; apply IH. }
  destruct (Py.lookup h a) as [[items|cls args cause attrs]|] eqn:Hl.
  - destruct (Py.lookup h' a) as [[items'|cls' args' cause' attrs']|];
      simpl in Ha; try contradiction. apply Hrepr.
  - destruct (Py.str_owner cls) as [owner|] eqn:Ho.
    + destruct owner;
        try (destruct (Py.lookup h' a) as [[?|cls' args' cause' attrs']|];
             simpl in Ha; try contradiction;
             destruct Ha as (<- & <- & <-); rewrite Ho;
             first [apply Hbase | reflexivity]).
      rewrite (Hint _ _ _ _ eq_refl Ho), Ho, Hbase.
      destruct (Py.BaseException_str (Py.str fuel h) h args) as [[|]|];
        [apply IH | reflexivity | reflexivity].
    + destruct (Py.lookup h' a) as [[?|cls' args' cause' attrs']|];
        simpl in Ha; try contradiction.
      destruct Ha as (<- & <- & <-). rewrite Ho. apply Hbase.
  - destruct (Py.lookup h' a); simpl in Ha; [contradiction | reflexivity].
Qed.

Lemma lookup_set_cause (h : Py.heap) (e : Py.addr) (c : Py.value)
    (a : Py.addr) :
  Py.lookup (Py.set_cause h e c) a
  = if Nat.eqb a e
    then match Py.lookup h e with
         | Some (Py.OExc cls args _ attrs) => Some (Py.OExc cls args c attrs)
         | o => o
         end
    else Py.lookup h a.
Proof.
  unfold Py.set_cause.
  destruct (Nat.eqb_spec a e) as [-> | Hne];
    destruct (Py.lookup h e) as [[items|cls args cause attrs]|] eqn:He;
    try reflexivity; try exact He.
  - assert (Hlt : (e < List.length h)%nat)
      by (apply nth_error_Some; unfold Py.lookup in He; congruence).
    unfold Py.lookup. rewrite nth_error_app2; rewrite length_firstn;
      [|lia]. now replace (e - Nat.min e (List.length h))%nat with 0%nat by lia.
  - assert (Hlt : (e < List.length h)%nat)
      by (apply nth_error_Some; unfold Py.lookup in He; congruence).
    unfold Py.lookup. destruct (Nat.lt_ge_cases a e) as [Hae | Hae].
    + rewrite nth_error_app1 by (rewrite length_firstn; lia).
      rewrite nth_error_firstn.
      destruct (Nat.ltb_spec a e); [reflexivity | lia].
    + rewrite nth_error_app2 by (rewrite length_firstn; lia).
      rewrite length_firstn.
      replace (a - Nat.min e (List.length h))%nat with (S (a - S e)) by lia.
      cbn [nth_error]. rewrite nth_error_skipn. f_equal. lia.
Qed.

Lemma same_but_cause_refl (o : option Py.object) :
  Taxonomy.same_but_cause o o.
Proof. destruct o as [[items|cls args cause attrs]|]; simpl; auto. Qed.

(** Setting the [__cause__] of an exception whose [__str__] is not that of
    [IntegrationError] leaves every string form as it was. *)
Lemma same_for_str_set_cause (h : Py.heap) (e : Py.addr) (cls : Py.Cls.t)
    (args : Py.addr) (cause : Py.value) (attrs : Py.fields) (c : Py.value) :
  Py.lookup h e = Some (Py.OExc cls args cause attrs) ->
  Py.str_owner cls <> Some Py.Cls.IntegrationError ->
  Taxonomy.same_for_str h (Py.set_cause h e c).
Proof.
  intros He Hcls a. rewrite lookup_set_cause.
  destruct (Nat.eqb_spec a e) as [-> | Hne].
  - rewrite He. split; [simpl; auto|].
    intros cls' args' cause' attrs' H Ho. injection H as <- _ _ _.
    contradiction.
  - split; [apply same_but_cause_refl | trivial].
Qed.

(** A result obtained on a heap stays the same on a heap that extends
    it. *)
Lemma repr_extends (h h' : Py.heap) :
  Taxonomy.extends h h' ->
  forall fuel active v s,
    Py.repr fuel h active v = Some s -> Py.repr fuel h' active v = Some s.
Proof.
  intros Hext. induction fuel as [|fuel IH]; intros active v s H;
    [discriminate|].
  destruct v as [| | |a]; try exact H. cbn [Py.repr] in *.
  destruct (Py.lookup h a) as [[items|cls args cause attrs]|] eqn:Ha;
    [| |discriminate]; rewrite (Hext _ _ Ha).
  - destruct items as [|x0 xs]; [exact H|].
    destruct (existsb (Nat.eqb a) active); [exact H|].
    destruct (Py.traverse (Py.repr fuel h (a :: active)) (x0 :: xs))
      as [rs|] eqn:T; [|discriminate].
    now rewrite (traverse_mono _ (Py.repr fuel h' (a :: active)) _
                   (IH (a :: active)) _ T).
  - destruct (Py.lookup h args) as [[items|c1 a1 k1 f1]|] eqn:Hargs;
      try discriminate. rewrite (Hext _ _ Hargs).
    destruct items as [|x [|y r]].
    + destruct (Py.repr fuel h active (Py.VRef args)) eqn:R; [|discriminate].
      now rewrite (IH _ _ _ R).
    + destruct (Py.repr fuel h active x) eqn:R; [|discriminate].
      now rewrite (IH _ _ _ R).
    + destruct (Py.repr fuel h active (Py.VRef args)) eqn:R; [|discriminate].
      now rewrite (IH _ _ _ R).
Qed.

Lemma str_extends (h h' : Py.heap) :
  Taxonomy.extends h h' ->
  forall fuel v s, Py.str fuel h v = Some s -> Py.str fuel h' v = Some s.
Proof.
  intros Hext. induction fuel as [|fuel IH]; intros v s H; [discriminate|].
  destruct v as [| | |a]; try exact H. cbn [Py.str] in *.
  assert (Hbase : forall args r,
             Py.BaseException_str (Py.str fuel h) h args = Some r ->
             Py.BaseException_str (Py.str fuel h') h' args = Some r).
  { intros args r. unfold Py.BaseException_str.
    destruct (Py.lookup h args) as [[items|c1 a1 k1 f1]|] eqn:Hargs;
      try discriminate. rewrite (Hext _ _ Hargs).
    destruct items as [|x [|y l]]; [trivial | apply IH | apply IH]. }
  destruct (Py.lookup h a) as [[items|cls args cause attrs]|] eqn:Ha;
    [| |discriminate]; rewrite (Hext _ _ Ha).
  - now apply (repr_extends h h' Hext).
  - destruct (Py.str_owner cls) as [[]|]; try exact H;
      try (now apply Hbase).
    destruct (Py.BaseException_str (Py.str fuel h) h args) as [b|] eqn:B;
      [|discriminate].
    rewrite (Hbase _ _ B). destruct b; [now apply IH | exact H].
Qed.

Lemma extends_app (h ext : Py.heap) : Taxonomy.extends h (h ++ ext)%list.
Proof.
  intros a o H. unfold Py.lookup in *.
  rewrite nth_error_app1; [exact H|].
  apply nth_error_Some. congruence.
Qed.

(** The string form of an exception built with one [str] argument by a
    class that keeps [BaseException.__str__]. *)
Lemma str_new_single (h : Py.heap) (cls : Py.Cls.t) (s : string)
    (attrs : Py.fields) (fuel : nat) :
  Py.str_owner cls = None ->
  Py.str_of (2 + fuel) (Py.new_exception h cls (fun _ => [Py.VStr s]) attrs)
  = Some s.
Proof.
  intros Hcls. unfold Py.str_of, Py.new_exception. simpl fst. simpl snd.
  change (2 + fuel)%nat with (S (S fuel)).
  rewrite (str_step_base _ _ _ _ _ _ _ (lookup_new_self _ _ _) Hcls).
  unfold Py.BaseException_str. now rewrite lookup_new_args.
Qed.

(** The [repr] and the string form of an exception whose [args] are itself
    and a text, for a class that keeps [BaseException.__str__]. *)
Lemma repr_new_self_args (h : Py.heap) (cls : Py.Cls.t) (msg : string)
    (attrs : Py.fields) (fuel : nat) :
  let r := Py.new_exception h cls
             (fun self => [Py.VRef self; Py.VStr msg]) attrs in
  Py.repr (4 + fuel) (fst r) [] (Py.VRef (snd r))
  = Some (Py.class_name cls
            ++ "(" ++ join ", " [Py.class_name cls ++ "(...)";
                                  Py.str_repr msg] ++ ")")
  /\ (Py.str_owner cls = None ->
      Py.str_of (5 + fuel) r
      = Some ("(" ++ join ", " [Py.class_name cls ++ "(...)";
                                Py.str_repr msg] ++ ")")).
Proof.
  unfold Py.str_of, Py.new_exception. simpl fst. simpl snd.
  set (self := List.length h).
  set (exc := Py.OExc cls (S self) Py.VNone attrs).
  set (h' := (h ++ [exc; Py.OTuple [Py.VRef self; Py.VStr msg]])%list).
  assert (Hself : Py.lookup h' self = Some exc) by apply lookup_new_self.
  assert (Hargs : Py.lookup h' (S self)
                  = Some (Py.OTuple [Py.VRef self; Py.VStr msg]))
    by apply lookup_new_args.
  assert (Htuple : forall f,
             Py.repr (S (S (S f))) h' [] (Py.VRef (S self))
             = Some ("(" ++ join ", " [Py.class_name cls ++ "(...)";
                                       Py.str_repr msg] ++ ")")).
  { intros f. rewrite (repr_step_tuple _ _ _ _ _ _ Hargs).
    cbn [existsb Py.traverse].
    rewrite (repr_step_exception _ _ _ _ _ _ _ _ _ _ _ Hself Hargs).
    rewrite (repr_step_tuple _ _ _ _ _ _ Hargs).
    cbn [existsb]. rewrite Nat.eqb_refl. cbn [orb]. reflexivity. }
  split.
  - change (4 + fuel)%nat with (S (S (S (S fuel)))).
    rewrite (repr_step_exception _ _ _ _ _ _ _ _ _ _ _ Hself Hargs).
    now rewrite Htuple.
  - intros Hcls. change (5 + fuel)%nat with (S (S (S (S (S fuel))))).
    rewrite (str_step_base _ _ _ _ _ _ _ Hself Hcls).
    unfold Py.BaseException_str. rewrite Hargs.
    rewrite (str_step_tuple _ _ _ _ Hargs). apply Htuple.
Qed.

Lemma plain_str_owner (cls : Py.Cls.t) :
  Taxonomy.plain cls = true -> Py.str_owner cls = None.
Proof. destruct cls; intros H; try discriminate H; reflexivity. Qed.

Lemma lifecycle_str_owner (cls : Py.Cls.t) :
  Py.lifecycle cls = true ->
  Py.str_owner cls = Some Py.Cls.IntegrationError.
Proof. destruct cls; intros H; try discriminate H; reflexivity. Qed.

(** X9. [TemplateError(s)] for a [str] [s] has [s] as its only argument and
    as its string form, with no class name in front.  [TemplateError(e)]
    for an exception [e] of class [C] whose string form is [m] has the
    string form [C: m]; it keeps that text only: its [__cause__] is
    [None]. *)
Theorem TemplateError_str (h : Py.heap) (fuel fuel' : nat) :
  (forall s, exists r,
      Taxonomy.TemplateError_init fuel h (Py.VStr s) = Some r
      /\ Py.args_in r = Some [Py.VStr s]
      /\ Py.str_of (2 + fuel') r = Some s)
  /\ (forall c cls args cause attrs m,
         Py.lookup h c = Some (Py.OExc cls args cause attrs) ->
         Py.str fuel h (Py.VRef c) = Some m ->
         exists r,
           Taxonomy.TemplateError_init fuel h (Py.VRef c) = Some r
           /\ Py.str_of (2 + fuel') r = Some (Py.class_name cls ++ ": " ++ m)
           /\ Py.cause_of (fst r) (snd r) = Some Py.VNone).
Proof.
  split.
  - intros s. eexists. split; [reflexivity|]. split.
    + apply args_in_new.
    + now apply str_new_single.
  - intros c cls args cause attrs m Hc Hm.
    unfold Taxonomy.TemplateError_init, Taxonomy.type_name.
    rewrite Hc, Hm. eexists. split; [reflexivity|]. split.
    + now apply str_new_single.
    + unfold Py.cause_of, Py.new_exception. simpl fst. simpl snd.
      now rewrite lookup_new_self.
Qed.

Lemma TemplateError_str_witness :
  exists r,
    Taxonomy.TemplateError_init 2
      [Py.OExc (Py.Cls.Builtin "ValueError") 1%nat Py.VNone Py.NoFields;
       Py.OTuple [Py.VStr "bad value"]] (Py.VRef 0%nat) = Some r
    /\ Py.str_of 2 r = Some "ValueError: bad value"
    /\ Py.cause_of (fst r) (snd r) = Some Py.VNone.
Proof.
  exact (proj2 (TemplateError_str
                  [Py.OExc (Py.Cls.Builtin "ValueError") 1%nat Py.VNone
                     Py.NoFields;
                   Py.OTuple [Py.VStr "bad value"]] 2%nat 0%nat)
           0%nat (Py.Cls.Builtin "ValueError") 1%nat Py.VNone Py.NoFields
           "bad value" eq_refl eq_refl).
Defined.

(** X10. [HomeAssistantError], [InvalidEntityFormatError],
    [NoEntitySpecifiedError] and [InvalidStateError] add nothing to
    [Exception]: built with a message, the string form is the message;
    built without argument, it is the empty string, and stays empty when
    the error is raised from a cause. *)
Theorem plain_exception_str (h : Py.heap) (cls : Py.Cls.t) (m : string)
    (c : Py.value) (fuel : nat) :
  Taxonomy.plain cls = true ->
  Py.str_of (2 + fuel) (Py.Exception_init h cls [Py.VStr m]) = Some m
  /\ Py.str_of (2 + fuel) (Py.Exception_init h cls []) = Some ""
  /\ Py.str_of (2 + fuel) (Py.from_cause (Py.Exception_init h cls []) c)
     = Some "".
Proof.
  intros Hplain. pose proof (plain_str_owner cls Hplain) as Hcls.
  assert (Hempty : Py.str_of (2 + fuel) (Py.Exception_init h cls [])
                   = Some "").
  { unfold Py.str_of, Py.Exception_init, Py.new_exception.
    simpl fst. simpl snd. change (2 + fuel)%nat with (S (S fuel)).
    rewrite (str_step_base _ _ _ _ _ _ _ (lookup_new_self _ _ _) Hcls).
    unfold Py.BaseException_str. now rewrite lookup_new_args. }
  split; [now apply str_new_single|]. split; [exact Hempty|].
  rewrite <- Hempty. unfold Py.str_of, Py.from_cause. simpl fst. simpl snd.
  apply str_same_for_str.
  eapply same_for_str_set_cause; [apply lookup_new_self|].
  rewrite Hcls. discriminate.
Qed.

Lemma plain_exception_str_witness :
  Py.str_of 2 (Py.Exception_init [] Py.Cls.InvalidStateError
                 [Py.VStr "bad state"]) = Some "bad state"
  /\ Py.str_of 2 (Py.Exception_init [] Py.Cls.InvalidStateError []) = Some ""
  /\ Py.str_of 2 (Py.from_cause
                    (Py.Exception_init [] Py.Cls.InvalidStateError [])
                    (Py.VStr "ignored")) = Some "".
Proof.
  exact (plain_exception_str [] Py.Cls.InvalidStateError "bad state"
           (Py.VStr "ignored") 0%nat eq_refl).
Defined.

(** X11. [RequiredParameterMissing(names)] stores [names], and its [args]
    are the exception itself followed by the text
    [Call must include at least one of the following parameters: ] and the
    names joined with [, ]; its string form is the rendering of that pair,
    [(RequiredParameterMissing(...), <repr of the text>)].  An empty list
    is accepted, and the text then ends after the colon and the blank. *)
Theorem RequiredParameterMissing_args_and_str (h : Py.heap)
    (parameter_names : list string) (fuel : nat) :
  let r := Taxonomy.RequiredParameterMissing_init h parameter_names in
  Taxonomy.names r = parameter_names
  /\ Py.args_in (Taxonomy.exc r)
     = Some [Py.VRef (List.length h);
             Py.VStr
               ("Call must include at least one of the following parameters: "
                  ++ join ", " parameter_names)]
  /\ Py.str_of (5 + fuel) (Taxonomy.exc r)
     = Some ("(RequiredParameterMissing(...), "
               ++ Py.str_repr
                    (Taxonomy.required_parameter_message parameter_names)
               ++ ")")
  /\ Py.args_in (Taxonomy.exc (Taxonomy.RequiredParameterMissing_init h []))
     = Some [Py.VRef (List.length h);
             Py.VStr
               "Call must include at least one of the following parameters: "].
Proof.
  cbv zeta. unfold Taxonomy.RequiredParameterMissing_init.
  cbn [Taxonomy.exc Taxonomy.names]. rewrite !args_in_new.
  split; [reflexivity|]. split; [reflexivity|]. split; [|reflexivity].
  destruct (repr_new_self_args h Py.Cls.RequiredParameterMissing
              (Taxonomy.required_parameter_message parameter_names)
              Py.NoFields fuel) as [_ H].
  rewrite (H eq_refl). reflexivity.
Qed.

(** X12. [DependencyError(deps)] stores [deps], and its [args] are the
    exception itself followed by the text [Could not setup dependencies: ]
    and the names joined with [, ]; its string form is the rendering of
    that pair, [(DependencyError(...), <repr of the text>)]. *)
Theorem DependencyError_args_and_str (h : Py.heap)
    (failed_dependencies : list string) (fuel : nat) :
  let r := Taxonomy.DependencyError_init h failed_dependencies in
  Taxonomy.names r = failed_dependencies
  /\ Py.args_in (Taxonomy.exc r)
     = Some [Py.VRef (List.length h);
             Py.VStr ("Could not setup dependencies: "
                        ++ join ", " failed_dependencies)]
  /\ Py.str_of (5 + fuel) (Taxonomy.exc r)
     = Some ("(DependencyError(...), "
               ++ Py.str_repr (Taxonomy.dependency_message failed_dependencies)
               ++ ")").
Proof.
  cbv zeta. unfold Taxonomy.DependencyError_init.
  cbn [Taxonomy.exc Taxonomy.names]. rewrite !args_in_new.
  split; [reflexivity|]. split; [reflexivity|].
  destruct (repr_new_self_args h Py.Cls.DependencyError
              (Taxonomy.dependency_message failed_dependencies)
              Py.NoFields fuel) as [_ H].
  rewrite (H eq_refl). reflexivity.
Qed.

Example DependencyError_two :
  Py.str_of 5 (Taxonomy.exc (Taxonomy.DependencyError_init [] ["mqtt"; "http"]))
  = Some ("(DependencyError(...), " ++
          "'Could not setup dependencies: mqtt, http')").
Proof. reflexivity. Qed.

(** X13. [ServiceNotFound(d, s)] has as [args] the exception itself
    followed by the text [Service d.s not found]; its [repr] ends, showing
    the inner occurrence of the exception as [ServiceNotFound(...)]. *)
Theorem ServiceNotFound_args_and_repr (h : Py.heap) (d s : string)
    (fuel : nat) :
  let r := Py.ServiceNotFound_init h d s in
  Py.args_in r
  = Some [Py.VRef (List.length h);
          Py.VStr ("Service " ++ d ++ "." ++ s ++ " not found")]
  /\ Py.repr (4 + fuel) (fst r) [] (Py.VRef (snd r))
     = Some ("ServiceNotFound(ServiceNotFound(...), "
               ++ Py.str_repr ("Service " ++ d ++ "." ++ s ++ " not found")
               ++ ")").
Proof.
  cbv zeta. unfold Py.ServiceNotFound_init. rewrite args_in_new.
  split; [reflexivity|].
  destruct (repr_new_self_args h Py.Cls.ServiceNotFound
              ("Service " ++ d ++ "." ++ s ++ " not found")
              (Py.ServiceNotFoundFields d s) fuel) as [H _].
  cbv zeta in H. rewrite H. reflexivity.
Qed.

(** X14. An integration-lifecycle error built without argument whose
    chain of [__cause__] runs through [n - 1] more such errors to a value
    [v] has the string form of [v]: the first cause with a text of its own
    speaks for the whole chain, and [None] does when the chain ends without
    one. *)
Theorem silent_chain_str (h : Py.heap) (e : Py.addr) (v : Py.value)
    (n : nat) :
  Taxonomy.silent h e v n ->
  forall fuel, Py.str (n + fuel) h (Py.VRef e) = Py.str fuel h v.
Proof.
  induction 1 as [e cls args cause attrs He Hcls Hargs
                 | e cls args e' attrs v n He Hcls Hargs _ IH]; intros fuel.
  - change (1 + fuel)%nat with (S fuel).
    rewrite (str_step_integration _ _ _ _ _ _ _ He
               (lifecycle_str_owner _ Hcls)).
    unfold Py.BaseException_str. now rewrite Hargs.
  - change (S n + fuel)%nat with (S (n + fuel)).
    rewrite (str_step_integration _ _ _ _ _ _ _ He
               (lifecycle_str_owner _ Hcls)).
    unfold Py.BaseException_str. rewrite Hargs. apply IH.
Qed.

Lemma silent_chain_str_witness :
  Py.str 4 Taxonomy.not_ready_twice (Py.VRef 4%nat) = Some "disk full".
Proof.
  exact (silent_chain_str Taxonomy.not_ready_twice 4%nat (Py.VRef 0%nat) 2%nat
           (Taxonomy.silent_next Taxonomy.not_ready_twice 4%nat
              Py.Cls.PlatformNotReady 5%nat 2%nat
              Py.NoFields (Py.VRef 0%nat) 1%nat eq_refl eq_refl eq_refl
              (Taxonomy.silent_last Taxonomy.not_ready_twice 2%nat
                 Py.Cls.ConfigEntryNotReady 3%nat
                 (Py.VRef 0%nat) Py.NoFields eq_refl eq_refl eq_refl))
           2%nat).
Defined.

(** X15. [raise E() from err], for [E] one of [PlatformNotReady],
    [ConfigEntryNotReady] and [ConfigEntryAuthFailed] and [err] any
    exception already on the heap whose string form is [s]: the new error
    has the string form [s]. *)
Theorem lifecycle_raised_from_cause (h : Py.heap) (cls : Py.Cls.t)
    (c : Py.addr) (s : string) (fuel : nat) :
  Py.lifecycle cls = true ->
  Py.str fuel h (Py.VRef c) = Some s ->
  Py.str_of (1 + fuel)
    (Py.from_cause (Py.Exception_init h cls []) (Py.VRef c))
  = Some s.
Proof.
  intros Hcls Hc.
  unfold Py.str_of, Py.from_cause, Py.Exception_init, Py.new_exception.
  simpl fst. simpl snd.
  set (e := List.length h).
  set (h1 := (h ++ [Py.OExc cls (S e) Py.VNone Py.NoFields;
                    Py.OTuple []])%list).
  set (h2 := Py.set_cause h1 e (Py.VRef c)).
  assert (He : Py.lookup h2 e
               = Some (Py.OExc cls (S e) (Py.VRef c) Py.NoFields)).
  { unfold h2. rewrite lookup_set_cause, Nat.eqb_refl.
    unfold h1, e. now rewrite lookup_new_self. }
  assert (Hargs : Py.lookup h2 (S e) = Some (Py.OTuple [])).
  { unfold h2. rewrite lookup_set_cause.
    destruct (Nat.eqb_spec (S e) e) as [Heq | _]; [lia|].
    apply lookup_new_args. }
  assert (Hext : Taxonomy.extends h h2).
  { intros a o Ha. unfold h2. rewrite lookup_set_cause.
    assert (a < e)%nat
      by (apply nth_error_Some; unfold Py.lookup in Ha; congruence).
    destruct (Nat.eqb_spec a e) as [Heq | _]; [lia|].
    now apply extends_app. }
  change (1 + fuel)%nat with (S fuel).
  rewrite (str_step_integration _ _ _ _ _ _ _ He
             (lifecycle_str_owner _ Hcls)).
  unfold Py.BaseException_str. rewrite Hargs.
  now apply (str_extends h h2 Hext).
Qed.

Lemma lifecycle_raised_from_cause_witness :
  Py.str_of 3
    (Py.from_cause
       (Py.Exception_init
          (fst (Py.ServiceNotFound_init [] "light" "turn_on"))
          Py.Cls.ConfigEntryAuthFailed [])
       (Py.VRef 0%nat))
  = Some "Unable to find service light.turn_on".
Proof.
  exact (lifecycle_raised_from_cause
           (fst (Py.ServiceNotFound_init [] "light" "turn_on"))
           Py.Cls.ConfigEntryAuthFailed 0%nat
           "Unable to find service light.turn_on" 2%nat eq_refl eq_refl).
Defined.

(** X16. [__cause__] is read by [IntegrationError.__str__] and by nothing
    else: setting the cause of an exception of any class that does not
    inherit that method changes no string form, neither its own nor that of
    any other value on the heap. *)
Theorem cause_read_by_IntegrationError_only (h : Py.heap) (e : Py.addr)
    (cls : Py.Cls.t) (args : Py.addr) (cause : Py.value) (attrs : Py.fields)
    (c : Py.value) (fuel : nat) (v : Py.value) :
  Py.lookup h e = Some (Py.OExc cls args cause attrs) ->
  Py.str_owner cls <> Some Py.Cls.IntegrationError ->
  Py.str fuel (Py.set_cause h e c) v = Py.str fuel h v.
Proof.
  intros He Hcls. apply str_same_for_str.
  exact (same_for_str_set_cause h e cls args cause attrs c He Hcls).
Qed.

Lemma cause_read_by_IntegrationError_only_witness :
  Py.str 5
    (Py.set_cause (fst (Py.MaxLengthExceeded_init [] "abc..." "name" 10))
       0%nat (Py.VStr "cause"))
    (Py.VRef 0%nat)
  = Py.str 5 (fst (Py.MaxLengthExceeded_init [] "abc..." "name" 10))
      (Py.VRef 0%nat).
Proof.
  refine (cause_read_by_IntegrationError_only
            (fst (Py.MaxLengthExceeded_init [] "abc..." "name" 10)) 0%nat
            Py.Cls.MaxLengthExceeded 1%nat Py.VNone
            (Py.MaxLengthExceededFields "abc..." "name" 10)
            (Py.VStr "cause") 5%nat (Py.VRef 0%nat) eq_refl _).
  discriminate.
Defined.
